(** * DGA Withdrawal Planner: the simulator and the withdrawal solver

    A shallow embedding of [simulate_withdrawal] and of the bisection loop
    guarded by [auto_calc_withdrawal] in [DGA-Withdrawal-Planner.py].

    Numbers.  The script computes on Python numbers (ints from the widgets,
    floats after the first division by 100).  They are idealised here as
    exact rationals [Q]: every arithmetic operation of the source is the
    corresponding operation of [Q], every comparison is the corresponding
    decidable comparison, and a division whose divisor is zero raises
    [ZeroDivisionError] as Python's does.  Equalities between computed
    amounts are therefore stated with [==] (equality of rationals), and
    rounding is outside the model.

    Rounding.  Where a statement depends on rounding (whether the
    bisection loop stops), the same code is embedded a second time in
    module [Binary64], with every operation rounded to the nearest binary64
    number, ties to even, as Python's floats are; exponents are unbounded
    there, so overflow, underflow and NaN stay outside that model too.

    Control.  The [for year in range(1, years + 1)] loop with its [break]
    is a structural recursion over the number of remaining periods; the
    unbounded [while high - low > tol] loop takes a fuel argument and
    answers [None] when the fuel does not suffice. *)

From Stdlib Require Import String Floats.
From Stdlib Require Import Qabs.
From Stdlib Require Import QArith Qpower Qround ZArith List Lia Lqa Bool.
Import ListNotations.

Local Open Scope Z_scope.
Local Open Scope Q_scope.

(** ** Errors *)

Inductive exception : Set :=
| ZeroDivisionError.

Inductive result (A : Type) : Type :=
| Ok (a : A)
| Raise (e : exception).

Arguments Ok {A} a.
Arguments Raise {A} e.

Definition bind {A B : Type} (m : result A) (k : A -> result B) : result B :=
  match m with
  | Ok a => k a
  | Raise e => Raise e
  end.

Notation "x <- m ;; k" := (bind m (fun x => k))
  (at level 61, m at next level, right associativity).

(** ** Python's comparisons and true division on exact numbers *)

(** [x < y] *)
Definition Qlt_bool (x y : Q) : bool := negb (Qle_bool y x).

(** [x / y]: raises [ZeroDivisionError] when the divisor is zero. *)
Definition truediv (x y : Q) : result Q :=
  if Qeq_bool y 0 then Raise ZeroDivisionError else Ok (x / y).

(** ** The rows of the table *)

Record YearRecord : Set := mkYearRecord {
  Year : Z;
  Profit : Q;
  Profit_Tax : Q;
  Dividend_Tax : Q;
  Gross_Withdrawal : Q;
  Net_Withdrawal : Q;
  End_Capital : Q
}.

(** The local variables of [simulate_withdrawal] that live across
    iterations of its loop. *)
Record sim_state : Set := mkState {
  capital : Q;
  capital_depleted : bool;
  data : list YearRecord
}.

(** ** simulate_withdrawal *)

Section Simulation.

(** [current_year] is a module-level global of the script. *)
Variable current_year : Z.

Variables start_capital annual_return inflation net_withdrawal : Q.
Variables tax_threshold1 tax_rate1 tax_rate2 dividend_tax : Q.

(** Progressive tax (single threshold). *)
Definition profit_tax_of (profit : Q) : Q :=
  if Qle_bool profit tax_threshold1
  then profit * tax_rate1
  else tax_threshold1 * tax_rate1 + (profit - tax_threshold1) * tax_rate2.

(** Inflation-adjusted net withdrawal of period [year]. *)
Definition adjusted_net_of (year : Z) : Q :=
  net_withdrawal * ((1 + inflation) ^ (year - 1)).

(** One pass through the body of the [for] loop, up to and including the
    [data.append]. *)
Definition loop_body (year : Z) (s : sim_state) : result sim_state :=
  let cal_year := (current_year + year)%Z in
  let profit := capital s * annual_return in
  let profit_tax := profit_tax_of profit in
  let adjusted_net_withdrawal := adjusted_net_of year in
  gross_withdrawal <- truediv adjusted_net_withdrawal (1 - dividend_tax) ;;
  let dividend_paid := gross_withdrawal * dividend_tax in
  let projected_capital :=
    capital s + profit - profit_tax - gross_withdrawal in
  if Qlt_bool projected_capital 0 then
    let gross_withdrawal := gross_withdrawal + projected_capital in
    let adjusted_net_withdrawal := gross_withdrawal * (1 - dividend_tax) in
    let dividend_paid := gross_withdrawal * dividend_tax in
    Ok (mkState 0 true
          (data s ++ [mkYearRecord cal_year profit profit_tax dividend_paid
                        gross_withdrawal adjusted_net_withdrawal 0]))
  else
    Ok (mkState projected_capital (capital_depleted s)
          (data s ++ [mkYearRecord cal_year profit profit_tax dividend_paid
                        gross_withdrawal adjusted_net_withdrawal
                        projected_capital])).

(** [for year in range(year, year + n)]: the body, then the [break] test. *)
Fixpoint for_years (n : nat) (year : Z) (s : sim_state) : result sim_state :=
  match n with
  | O => Ok s
  | S n' =>
      s' <- loop_body year s ;;
      if capital_depleted s' then Ok s' else for_years n' (year + 1)%Z s'
  end.

(** The year-0 row. *)
Definition year0 : YearRecord :=
  mkYearRecord current_year 0 0 0 0 0 start_capital.

(** The function returns the table, the flag and the final capital. *)
Definition simulate_withdrawal (years : Z)
  : result (list YearRecord * bool * Q) :=
  s <- for_years (Z.to_nat years) 1%Z (mkState start_capital false [year0]) ;;
  Ok (data s, capital_depleted s, capital s).

(** *** The table, row by row

    The quantities of one period as functions of the period number and of
    the capital at its start, for a divisor [1 - dividend_tax] that is not
    zero: they are the expressions of the loop body, named so that the
    statements below can speak of them. *)

(** [gross_withdrawal] before the depletion test. *)
Definition gross_of (year : Z) : Q :=
  adjusted_net_of year / (1 - dividend_tax).

(** [projected_capital] *)
Definition projected_of (year : Z) (c : Q) : Q :=
  c + c * annual_return - profit_tax_of (c * annual_return) - gross_of year.

(** The test [projected_capital < 0]. *)
Definition clamped (year : Z) (c : Q) : bool :=
  Qlt_bool (projected_of year c) 0.

(** The row appended for period [year] when the capital before it is [c]. *)
Definition period_row (year : Z) (c : Q) : YearRecord :=
  let cal_year := (current_year + year)%Z in
  let profit := c * annual_return in
  let profit_tax := profit_tax_of profit in
  let gross_withdrawal := gross_of year in
  let projected_capital := projected_of year c in
  if clamped year c then
    let gross_withdrawal := gross_withdrawal + projected_capital in
    mkYearRecord cal_year profit profit_tax (gross_withdrawal * dividend_tax)
      gross_withdrawal (gross_withdrawal * (1 - dividend_tax)) 0
  else
    mkYearRecord cal_year profit profit_tax (gross_withdrawal * dividend_tax)
      gross_withdrawal (adjusted_net_of year) projected_capital.

(** [trace year c rows c' b]: starting period [year] with capital [c], the
    loop appends [rows] and leaves capital [c'] and flag [b]. *)
Inductive trace : Z -> Q -> list YearRecord -> Q -> bool -> Prop :=
| trace_done : forall year c,
    trace year c [] c false
| trace_break : forall year c,
    clamped year c = true ->
    trace year c [period_row year c] 0 true
| trace_next : forall year c rows c' b,
    clamped year c = false ->
    trace (year + 1) (projected_of year c) rows c' b ->
    trace year c (period_row year c :: rows) c' b.

End Simulation.

(** ** Automatic net withdrawal calculation *)

Section Solver.

Variable current_year : Z.
Variables start_capital annual_return inflation : Q.
Variables tax_threshold1 tax_rate1 tax_rate2 dividend_tax : Q.
Variable years : Z.

(** tolerance in euros *)
Definition tol : Q := 1.

(** [while high - low > tol: ...] on exact numbers.  [None]: the fuel ran
    out.  Whether the loop stops depends on rounding and is settled on
    [Binary64.bisect] below, not on this function. *)
Fixpoint bisect (fuel : nat) (low high : Q) : option (result (Q * Q)) :=
  if Qlt_bool tol (high - low) then
    match fuel with
    | O => None
    | S fuel' =>
        let test_withdrawal := (low + high) / 2 in
        match simulate_withdrawal current_year start_capital annual_return
                inflation test_withdrawal tax_threshold1 tax_rate1 tax_rate2
                dividend_tax years with
        | Raise e => Some (Raise e)
        | Ok (_, _, end_capital) =>
            if Qlt_bool 0 end_capital
            then bisect fuel' test_withdrawal high
            else bisect fuel' low test_withdrawal
        end
    end
  else Some (Ok (low, high)).

(** The value bound to [net_withdrawal] after the loop. *)
Definition solve_withdrawal (fuel : nat) : option (result Q) :=
  match bisect fuel 0 (start_capital * 2) with
  | None => None
  | Some (Raise e) => Some (Raise e)
  | Some (Ok (low, high)) => Some (Ok ((low + high) / 2))
  end.

(** The final capital of a run with a given base withdrawal, when the run
    returns. *)
Definition end_capital_of (w : Q) : option Q :=
  match simulate_withdrawal current_year start_capital annual_return
          inflation w tax_threshold1 tax_rate1 tax_rate2 dividend_tax
          years with
  | Ok (_, _, end_capital) => Some end_capital
  | Raise _ => None
  end.

(** The final capital of the run the script makes next, with the value
    the loop has bound to [net_withdrawal]. *)
Definition solved_end_capital (fuel : nat) : option Q :=
  match solve_withdrawal fuel with
  | Some (Ok w) => end_capital_of w
  | _ => None
  end.

(** A number of iterations after which an interval of width
    [start_capital * 2] has been halved to width at most [tol]. *)
Definition bisect_bound : nat :=
  Z.to_nat (Z.log2_up (Qceiling (start_capital * 2))).

End Solver.

(** ** The same computation in binary64

    Python's floats are binary64 numbers: 53 significant bits, and every
    operation returns the exact result rounded to the nearest such number,
    ties to the even one.  The numbers are kept as rationals. *)

(** The nearest integer, ties to even. *)
Definition half_even (x : Q) : Z :=
  let f := Qfloor x in
  let r := x - inject_Z f in
  if Qlt_bool r (1 # 2) then f
  else if Qlt_bool (1 # 2) r then (f + 1)%Z
  else if Z.even f then f else (f + 1)%Z.

(** The exponent [e] of the last place of [q]:
    [2 ^ 52 <= |q| / 2 ^ e < 2 ^ 53]. *)
Definition binade (q : Q) : Z :=
  let e := (Z.log2 (Z.abs (Qnum q)) - Z.log2 (Zpos (Qden q)) - 53)%Z in
  if Qle_bool (2 ^ 53) (Qabs q * 2 ^ (- e)) then (e + 1)%Z else e.

(** Rounding to binary64. *)
Definition rnd (q : Q) : Q :=
  if Qeq_bool q 0 then 0
  else inject_Z (half_even (q * 2 ^ (- binade q))) * 2 ^ binade q.

(** The value of one of Rocq's own binary64 numbers, to compare [rnd]
    with. *)
Definition Q_of_float (f : float) : option Q :=
  match Prim2SF f with
  | S754_zero _ => Some 0
  | S754_finite s m e =>
      Some (inject_Z (if s then Z.neg m else Z.pos m) * 2 ^ e)
  | _ => None
  end.

Module Binary64.

(** [x + y], [x - y], [x * y] *)
Definition add (x y : Q) : Q := rnd (x + y).
Definition sub (x y : Q) : Q := rnd (x - y).
Definition mul (x y : Q) : Q := rnd (x * y).

(** [x / y] *)
Definition truediv (x y : Q) : result Q :=
  if Qeq_bool y 0 then Raise ZeroDivisionError else Ok (rnd (x / y)).

(** [x ** n] for an int [n] that is not negative: Python answers 1.0
    itself for [n = 0] and calls C's [pow] otherwise, taken here to round
    correctly. *)
Definition pow (x : Q) (n : Z) : Q :=
  if (n =? 0)%Z then 1 else rnd (x ^ n).

Section Simulation.

Variable current_year : Z.
Variables start_capital annual_return inflation net_withdrawal : Q.
Variables tax_threshold1 tax_rate1 tax_rate2 dividend_tax : Q.

Definition profit_tax_of (profit : Q) : Q :=
  if Qle_bool profit tax_threshold1
  then mul profit tax_rate1
  else add (mul tax_threshold1 tax_rate1)
           (mul (sub profit tax_threshold1) tax_rate2).

Definition adjusted_net_of (year : Z) : Q :=
  mul net_withdrawal (pow (add 1 inflation) (year - 1)).

Definition loop_body (year : Z) (s : sim_state) : result sim_state :=
  let cal_year := (current_year + year)%Z in
  let profit := mul (capital s) annual_return in
  let profit_tax := profit_tax_of profit in
  let adjusted_net_withdrawal := adjusted_net_of year in
  gross_withdrawal <- truediv adjusted_net_withdrawal (sub 1 dividend_tax) ;;
  let dividend_paid := mul gross_withdrawal dividend_tax in
  let projected_capital :=
    sub (sub (add (capital s) profit) profit_tax) gross_withdrawal in
  if Qlt_bool projected_capital 0 then
    let gross_withdrawal := add gross_withdrawal projected_capital in
    let adjusted_net_withdrawal :=
      mul gross_withdrawal (sub 1 dividend_tax) in
    let dividend_paid := mul gross_withdrawal dividend_tax in
    Ok (mkState 0 true
          (data s ++ [mkYearRecord cal_year profit profit_tax dividend_paid
                        gross_withdrawal adjusted_net_withdrawal 0]))
  else
    Ok (mkState projected_capital (capital_depleted s)
          (data s ++ [mkYearRecord cal_year profit profit_tax dividend_paid
                        gross_withdrawal adjusted_net_withdrawal
                        projected_capital])).

Fixpoint for_years (n : nat) (year : Z) (s : sim_state) : result sim_state :=
  match n with
  | O => Ok s
  | S n' =>
      s' <- loop_body year s ;;
      if capital_depleted s' then Ok s' else for_years n' (year + 1)%Z s'
  end.

Definition simulate_withdrawal (years : Z)
  : result (list YearRecord * bool * Q) :=
  s <- for_years (Z.to_nat years) 1%Z
         (mkState start_capital false
            [mkYearRecord current_year 0 0 0 0 0 start_capital]) ;;
  Ok (data s, capital_depleted s, capital s).

End Simulation.

Section Solver.

Variable current_year : Z.
Variables start_capital annual_return inflation : Q.
Variables tax_threshold1 tax_rate1 tax_rate2 dividend_tax : Q.
Variable years : Z.

(** One pass through the body of the [while] loop: the interval it leaves,
    or the exception of the simulation. *)
Definition bisect_body (low high : Q) : result (Q * Q) :=
  let test_withdrawal := rnd (add low high / 2) in
  match simulate_withdrawal current_year start_capital annual_return
          inflation test_withdrawal tax_threshold1 tax_rate1 tax_rate2
          dividend_tax years with
  | Raise e => Raise e
  | Ok (_, _, end_capital) =>
      if Qlt_bool 0 end_capital
      then Ok (test_withdrawal, high)
      else Ok (low, test_withdrawal)
  end.

(** [while high - low > tol: ...].  [None]: the fuel ran out. *)
Fixpoint bisect (fuel : nat) (low high : Q) : option (result (Q * Q)) :=
  if Qlt_bool tol (sub high low) then
    match fuel with
    | O => None
    | S fuel' =>
        match bisect_body low high with
        | Raise e => Some (Raise e)
        | Ok (low', high') => bisect fuel' low' high'
        end
    end
  else Some (Ok (low, high)).

(** The value bound to [net_withdrawal] after the loop. *)
Definition solve_withdrawal (fuel : nat) : option (result Q) :=
  match bisect fuel 0 (mul start_capital 2) with
  | None => None
  | Some (Raise e) => Some (Raise e)
  | Some (Ok (low, high)) => Some (Ok (rnd (add low high / 2)))
  end.

(** The interval after [n] passes through the loop, [None] if the loop
    has stopped or raised before. *)
Fixpoint bisect_state (n : nat) (low high : Q) : option (Q * Q) :=
  match n with
  | O => Some (low, high)
  | S n' =>
      if Qlt_bool tol (sub high low) then
        match bisect_body low high with
        | Raise _ => None
        | Ok (low', high') => bisect_state n' low' high'
        end
      else None
  end.

End Solver.

End Binary64.

(** The intervals the loop in binary64 can reach from [[0, h]] without
    rounding: after [j] halvings, [[a * h / 2 ^ j, (a + 1) * h / 2 ^ j]]. *)
Definition on_grid (h : Z) (j : nat) (low high : Q) : Prop :=
  exists a : Z,
    (0 <= a)%Z /\ (a + 1 <= 2 ^ Z.of_nat j)%Z /\
    low == inject_Z (a * h) / inject_Z (2 ^ Z.of_nat j) /\
    high == inject_Z ((a + 1) * h) / inject_Z (2 ^ Z.of_nat j).

(** ** What the page shows of a table *)

(** [highlight_negative]: the style of a cell of the End Capital column. *)
Definition highlight_negative (val : Q) : string :=
  let color := if Qlt_bool val 0 then "red"%string else EmptyString in
  ("color: " ++ color)%string.

(** [df[column].sum()] *)
Definition column_sum (column : YearRecord -> Q) (df : list YearRecord) : Q :=
  fold_left Qplus (map column df) 0.

(** The two totals of the metrics row. *)
Definition total_profit_tax (df : list YearRecord) : Q :=
  column_sum Profit_Tax df.

Definition total_dividend_tax (df : list YearRecord) : Q :=
  column_sum Dividend_Tax df.

(** [int(df.iloc[-1]['Year'])], the year named in the depletion warning;
    [None] stands for the [IndexError] of a table without rows. *)
Definition depletion_year (df : list YearRecord) : option Z :=
  option_map Year (nth_error df (Nat.pred (length df))).

(** * Properties *)

(** ** Comparisons and division *)

Lemma Qlt_bool_true (x y : Q) : Qlt_bool x y = true <-> x < y.
Proof.
  unfold Qlt_bool. rewrite negb_true_iff.
  split; intro H.
  - apply Qnot_le_lt. intro Hle. apply Qle_bool_iff in Hle. congruence.
  - destruct (Qle_bool y x) eqn:E; [|reflexivity].
    apply Qle_bool_iff in E. exfalso. apply (Qlt_not_le _ _ H E).
Qed.

Lemma Qlt_bool_false (x y : Q) : Qlt_bool x y = false <-> y <= x.
Proof.
  unfold Qlt_bool. rewrite negb_false_iff. apply Qle_bool_iff.
Qed.

Lemma truediv_zero (x y : Q) : y == 0 -> truediv x y = Raise ZeroDivisionError.
Proof.
  intro H. unfold truediv. apply Qeq_bool_iff in H. now rewrite H.
Qed.

Lemma truediv_nonzero (x y : Q) : ~ y == 0 -> truediv x y = Ok (x / y).
Proof.
  intro H. unfold truediv. destruct (Qeq_bool y 0) eqn:E; [|reflexivity].
  apply Qeq_bool_iff in E. contradiction.
Qed.

(** [lra] reads a quotient as an unknown; it is given the midpoint as a
    product. *)
Lemma midpoint_eq (low high : Q) :
  (low + high) / 2 == (low + high) * (1 # 2).
Proof.
  reflexivity.
Qed.

(** ** The loop of [simulate_withdrawal] *)

Section SimulationFacts.

Variable current_year : Z.
Variables start_capital annual_return inflation net_withdrawal : Q.
Variables tax_threshold1 tax_rate1 tax_rate2 dividend_tax : Q.

Local Abbreviation body :=
  (loop_body current_year annual_return inflation net_withdrawal
     tax_threshold1 tax_rate1 tax_rate2 dividend_tax).
Local Abbreviation loop :=
  (for_years current_year annual_return inflation net_withdrawal
     tax_threshold1 tax_rate1 tax_rate2 dividend_tax).
Local Abbreviation simulate :=
  (simulate_withdrawal current_year start_capital annual_return inflation
     net_withdrawal tax_threshold1 tax_rate1 tax_rate2 dividend_tax).
Local Abbreviation row :=
  (period_row current_year annual_return inflation net_withdrawal
     tax_threshold1 tax_rate1 tax_rate2 dividend_tax).
Local Abbreviation projected :=
  (projected_of annual_return inflation net_withdrawal
     tax_threshold1 tax_rate1 tax_rate2 dividend_tax).
Local Abbreviation clamp :=
  (clamped annual_return inflation net_withdrawal
     tax_threshold1 tax_rate1 tax_rate2 dividend_tax).
Local Abbreviation gross := (gross_of inflation net_withdrawal dividend_tax).
Local Abbreviation tax := (profit_tax_of tax_threshold1 tax_rate1 tax_rate2).
Local Abbreviation run :=
  (trace current_year annual_return inflation net_withdrawal
     tax_threshold1 tax_rate1 tax_rate2 dividend_tax).
Local Abbreviation first_row := (year0 current_year start_capital).

Lemma loop_body_raises (year : Z) (s : sim_state) :
  1 - dividend_tax == 0 -> body year s = Raise ZeroDivisionError.
Proof.
  intro H. unfold loop_body. now rewrite (truediv_zero _ _ H).
Qed.

Lemma loop_body_returns (year : Z) (s : sim_state) :
  ~ 1 - dividend_tax == 0 ->
  body year s =
    Ok (mkState (End_Capital (row year (capital s)))
          (clamp year (capital s) || capital_depleted s)
          (data s ++ [row year (capital s)])).
Proof.
  intro H. unfold loop_body. rewrite (truediv_nonzero _ _ H). simpl.
  unfold period_row, clamped, projected_of, gross_of.
  destruct (Qlt_bool _ 0); reflexivity.
Qed.

Lemma row_end_capital (year : Z) (c : Q) :
  End_Capital (row year c) = if clamp year c then 0 else projected year c.
Proof.
  unfold period_row. destruct (clamp year c); reflexivity.
Qed.

Lemma for_years_raises (n : nat) (year : Z) (s : sim_state) :
  1 - dividend_tax == 0 -> loop (S n) year s = Raise ZeroDivisionError.
Proof.
  intro H. simpl. now rewrite (loop_body_raises _ _ H).
Qed.

(** With a divisor that is not zero the loop returns, and what it appends
    is a trace. *)
Lemma for_years_trace (n : nat) :
  ~ 1 - dividend_tax == 0 ->
  forall year s, capital_depleted s = false ->
  exists rows c' b,
    loop n year s = Ok (mkState c' b (data s ++ rows)) /\
    run year (capital s) rows c' b /\ (length rows <= n)%nat.
Proof.
  intro Hd. induction n as [|n IH]; intros year s Hs.
  - exists [], (capital s), false. rewrite app_nil_r.
    destruct s as [c b d]; simpl in *; subst b.
    repeat split; [constructor | lia].
  - simpl. rewrite (loop_body_returns _ _ Hd). simpl. rewrite Hs, orb_false_r.
    destruct (clamp year (capital s)) eqn:E.
    + exists [row year (capital s)], 0, true.
      rewrite row_end_capital, E.
      repeat split; [now constructor | simpl; lia].
    + rewrite row_end_capital, E.
      destruct (IH (year + 1)%Z
                  (mkState (projected year (capital s)) false
                     (data s ++ [row year (capital s)])) eq_refl)
        as (rows & c' & b & Hrun & Htr & Hlen).
      exists (row year (capital s) :: rows), c', b.
      simpl in Hrun, Htr. rewrite Hrun, <- app_assoc. simpl.
      repeat split; [now constructor | lia].
Qed.

(** Whatever [simulate_withdrawal] returns is the year-0 row followed by a
    trace, of at most [years] rows; rows after year 0 exist only when the
    divisor is not zero. *)
Lemma simulate_returns_trace (years : Z) dat dep fin :
  simulate years = Ok (dat, dep, fin) ->
  exists rows,
    dat = first_row :: rows /\ run 1%Z start_capital rows fin dep /\
    (length rows <= Z.to_nat years)%nat /\
    (rows <> [] -> ~ 1 - dividend_tax == 0).
Proof.
  unfold simulate_withdrawal. intro H.
  destruct (Qeq_dec (1 - dividend_tax) 0) as [Hz|Hnz].
  - destruct (Z.to_nat years) as [|n].
    + simpl in H. injection H as <- <- <-.
      exists []. repeat split; [constructor | simpl; lia | congruence].
    + rewrite (for_years_raises _ _ _ Hz) in H. discriminate.
  - destruct (for_years_trace (Z.to_nat years) Hnz 1%Z
                (mkState start_capital false [first_row]) eq_refl)
      as (rows & c' & b & Hrun & Htr & Hlen).
    rewrite Hrun in H. simpl in H. injection H as <- <- <-.
    exists rows. repeat split; auto.
Qed.

(** [simulate_withdrawal] returns whenever the divisor is not zero. *)
Lemma simulate_returns (years : Z) :
  ~ 1 - dividend_tax == 0 ->
  exists rows dep fin, simulate years = Ok (first_row :: rows, dep, fin).
Proof.
  intro Hnz. unfold simulate_withdrawal.
  destruct (for_years_trace (Z.to_nat years) Hnz 1%Z
              (mkState start_capital false [first_row]) eq_refl)
    as (rows & c' & b & Hrun & _).
  rewrite Hrun. simpl. now exists rows, b, c'.
Qed.

(** ** Rows of a trace *)

Lemma trace_next_capital (year : Z) (c : Q) :
  clamp year c = false -> End_Capital (row year c) = projected year c.
Proof.
  intro E. now rewrite row_end_capital, E.
Qed.

(** Row [k + 1] of a table is the row of period [year + k] computed from
    the end capital of row [k]; if that period is clamped the table stops
    there with the flag set and no capital left. *)
Lemma trace_nth (year : Z) (c : Q) rows c' b :
  run year c rows c' b ->
  forall r0 k prev r,
    End_Capital r0 = c ->
    nth_error (r0 :: rows) k = Some prev ->
    nth_error rows k = Some r ->
    r = row (year + Z.of_nat k) (End_Capital prev) /\
    (clamp (year + Z.of_nat k) (End_Capital prev) = true ->
     b = true /\ c' = 0 /\ length rows = S k).
Proof.
  induction 1 as [year c | year c Hc | year c rows c' b Hc Htr IH];
    intros r0 k prev r H0 Hprev Hr.
  - destruct k; discriminate.
  - destruct k as [|k]; [|destruct k; discriminate].
    simpl in *. injection Hprev as <-. injection Hr as <-.
    rewrite Z.add_0_r, H0. auto.
  - destruct k as [|k]; simpl in Hprev, Hr.
    + injection Hprev as <-. injection Hr as <-.
      rewrite Z.add_0_r, H0. split; [reflexivity|]. congruence.
    + replace (year + Z.of_nat (S k))%Z with (year + 1 + Z.of_nat k)%Z by lia.
      destruct (IH (row year c) k prev r (trace_next_capital _ _ Hc) Hprev Hr)
        as [Hrow Hlast].
      split; [exact Hrow|]. intro E. destruct (Hlast E) as (-> & -> & Hlen).
      simpl. auto.
Qed.

Lemma trace_rows (year : Z) (c : Q) rows c' b :
  run year c rows c' b ->
  Forall (fun r => exists y c0, r = row y c0) rows.
Proof.
  induction 1; repeat constructor; eauto.
Qed.

Lemma row_nonneg (year : Z) (c : Q) : 0 <= End_Capital (row year c).
Proof.
  rewrite row_end_capital. destruct (clamp year c) eqn:E.
  - apply Qle_refl.
  - now apply Qlt_bool_false in E.
Qed.

Lemma trace_final_nonneg (year : Z) (c : Q) rows c' b :
  run year c rows c' b -> 0 <= c -> 0 <= c'.
Proof.
  induction 1 as [year c | year c Hc | year c rows c' b Hc Htr IH]; intro H0.
  - exact H0.
  - apply Qle_refl.
  - apply IH. now apply Qlt_bool_false in Hc.
Qed.

Lemma trace_flag (year : Z) (c : Q) rows c' b :
  run year c rows c' b -> b = true -> c' = 0 /\ rows <> [].
Proof.
  induction 1 as [year c | year c Hc | year c rows c' b Hc Htr IH]; intro Hb.
  - discriminate.
  - split; [reflexivity | discriminate].
  - split; [now apply IH | discriminate].
Qed.

Lemma row_withdrawal_split (year : Z) (c : Q) :
  ~ 1 - dividend_tax == 0 ->
  Net_Withdrawal (row year c)
    == Gross_Withdrawal (row year c) * (1 - dividend_tax) /\
  Net_Withdrawal (row year c) + Dividend_Tax (row year c)
    == Gross_Withdrawal (row year c).
Proof.
  intro Hd. unfold period_row. destruct (clamp year c); simpl.
  - split; [reflexivity | ring].
  - unfold gross_of. split; field; exact Hd.
Qed.

(** ** Statements about the table *)

(** C1. With a start capital that is not negative, no row of the returned
    table has a negative end capital. *)
Theorem end_capital_never_negative (years : Z) dat dep fin :
  0 <= start_capital ->
  simulate_withdrawal current_year start_capital annual_return inflation
    net_withdrawal tax_threshold1 tax_rate1 tax_rate2 dividend_tax years
    = Ok (dat, dep, fin) ->
  Forall (fun r => 0 <= End_Capital r) dat.
Proof.
  intros H0 H.
  destruct (simulate_returns_trace _ _ _ _ H) as (rows & -> & Htr & _).
  constructor; [exact H0|].
  eapply Forall_impl; [|exact (trace_rows _ _ _ _ _ Htr)].
  intros r (y & c0 & ->). apply row_nonneg.
Qed.


(** C9. In every row after year 0, clamped or not, the net withdrawal is
    the gross withdrawal times (1 - dividend tax rate), and net withdrawal
    plus dividend tax is the gross withdrawal. *)
Theorem withdrawal_split (years : Z) dat dep fin (k : nat) r :
  simulate_withdrawal current_year start_capital annual_return inflation
    net_withdrawal tax_threshold1 tax_rate1 tax_rate2 dividend_tax years
    = Ok (dat, dep, fin) ->
  nth_error dat (S k) = Some r ->
  Net_Withdrawal r == Gross_Withdrawal r * (1 - dividend_tax) /\
  Net_Withdrawal r + Dividend_Tax r == Gross_Withdrawal r.
Proof.
  intros H Hr.
  destruct (simulate_returns_trace _ _ _ _ H) as (rows & -> & Htr & _ & Hd).
  simpl in Hr.
  assert (Hne : rows <> []) by (intros ->; destruct k; discriminate).
  pose proof (trace_rows _ _ _ _ _ Htr) as Hall.
  rewrite Forall_forall in Hall.
  destruct (Hall r (nth_error_In _ _ Hr)) as (y & c0 & ->).
  apply row_withdrawal_split. auto.
Qed.

Lemma profit_tax_low (profit : Q) :
  profit <= tax_threshold1 -> tax profit = profit * tax_rate1.
Proof.
  intro H. unfold profit_tax_of. apply Qle_bool_iff in H. now rewrite H.
Qed.

Lemma profit_tax_high (profit : Q) :
  tax_threshold1 < profit ->
  tax profit
    = tax_threshold1 * tax_rate1 + (profit - tax_threshold1) * tax_rate2.
Proof.
  intro H. unfold profit_tax_of.
  destruct (Qle_bool profit tax_threshold1) eqn:E; [|reflexivity].
  apply Qle_bool_iff in E. exfalso. apply (Qlt_not_le _ _ H E).
Qed.

(** C3, amended.  In every row after year 0 the profit is the previous end
    capital times the return rate and the profit tax is the two-bracket
    formula applied to that profit, whatever its sign.  For a negative
    profit and a threshold that is not negative the tax is
    profit * low rate: negative when the low rate is positive, zero when
    the low rate is zero. *)
Theorem profit_tax_two_brackets (years : Z) dat dep fin (k : nat) prev r :
  simulate_withdrawal current_year start_capital annual_return inflation
    net_withdrawal tax_threshold1 tax_rate1 tax_rate2 dividend_tax years
    = Ok (dat, dep, fin) ->
  nth_error dat k = Some prev ->
  nth_error dat (S k) = Some r ->
  Profit r = End_Capital prev * annual_return /\
  (Profit r <= tax_threshold1 -> Profit_Tax r = Profit r * tax_rate1) /\
  (tax_threshold1 < Profit r ->
   Profit_Tax r
     = tax_threshold1 * tax_rate1
       + (Profit r - tax_threshold1) * tax_rate2) /\
  (Profit r < 0 -> 0 <= tax_threshold1 ->
   Profit_Tax r = Profit r * tax_rate1 /\
   (0 < tax_rate1 -> Profit_Tax r < 0) /\
   (tax_rate1 == 0 -> Profit_Tax r == 0)).
Proof.
  intros H Hprev Hr.
  destruct (simulate_returns_trace _ _ _ _ H) as (rows & -> & Htr & _ & _).
  simpl in Hr.
  destruct (trace_nth _ _ _ _ _ Htr first_row k prev r eq_refl Hprev Hr)
    as [-> _].
  assert (Hp : forall y c, Profit (row y c) = c * annual_return)
    by (intros; unfold period_row; destruct (clamp _ _); reflexivity).
  assert (Ht : forall y c, Profit_Tax (row y c) = tax (Profit (row y c)))
    by (intros; unfold period_row; destruct (clamp _ _); reflexivity).
  rewrite Ht, Hp.
  split; [reflexivity|]. split; [apply profit_tax_low|].
  split; [apply profit_tax_high|].
  intros Hneg Hthr.
  assert (Hlow : End_Capital prev * annual_return <= tax_threshold1) by lra.
  rewrite (profit_tax_low _ Hlow).
  split; [reflexivity|]. split.
  - intro Hrate. nra.
  - intro Hrate. rewrite Hrate. ring.
Qed.

(** C6, amended.  The function validates nothing.  With a dividend tax
    rate of 1 and at least one period it raises [ZeroDivisionError] in the
    first period, returning no table; with a horizon that is zero or
    negative it returns the year-0 row alone, whatever the other
    parameters; and with any other dividend tax rate it returns a table
    whose first row carries the start capital as given, negative or not. *)
Theorem no_parameter_validation (years : Z) :
  (1 - dividend_tax == 0 -> (1 <= years)%Z ->
   simulate_withdrawal current_year start_capital annual_return inflation
     net_withdrawal tax_threshold1 tax_rate1 tax_rate2 dividend_tax years
     = Raise ZeroDivisionError) /\
  ((years <= 0)%Z ->
   simulate_withdrawal current_year start_capital annual_return inflation
    net_withdrawal tax_threshold1 tax_rate1 tax_rate2 dividend_tax years
    = Ok ([year0 current_year start_capital], false, start_capital)) /\
  (~ 1 - dividend_tax == 0 ->
   exists rows dep fin,
     simulate_withdrawal current_year start_capital annual_return inflation
    net_withdrawal tax_threshold1 tax_rate1 tax_rate2 dividend_tax years
    = Ok (year0 current_year start_capital :: rows, dep, fin) /\
     End_Capital (year0 current_year start_capital) = start_capital).
Proof.
  split; [|split].
  - intros Hz Hy. unfold simulate_withdrawal.
    destruct (Z.to_nat years) as [|n] eqn:E; [lia|].
    now rewrite (for_years_raises _ _ _ Hz).
  - intro Hy. unfold simulate_withdrawal.
    replace (Z.to_nat years) with O by lia. reflexivity.
  - intro Hnz. destruct (simulate_returns years Hnz) as (rows & dep & fin & H).
    exists rows, dep, fin. split; [exact H | reflexivity].
Qed.

End SimulationFacts.

(** C10.  With a return of -200% on a capital of 100000 the first period
    is clamped to a gross withdrawal of -62000 and a net withdrawal of
    -46500: the withdrawal is a contribution, the end capital is 0 and the
    flag is set. *)
Theorem clamp_can_make_withdrawal_negative :
  exists dat r,
    simulate_withdrawal 2024 100000 (-2) (2 # 100) 30000
      200000 (19 # 100) (258 # 1000) (25 # 100) 35 = Ok (dat, true, 0) /\
    nth_error dat 0 = Some (year0 2024 100000) /\
    nth_error dat 1 = Some r /\ length dat = 2%nat /\
    End_Capital (year0 2024 100000) + Profit r - Profit_Tax r < 0 /\
    Gross_Withdrawal r == - 62000 /\ Gross_Withdrawal r < 0 /\
    Net_Withdrawal r == - 46500 /\ Net_Withdrawal r < 0 /\
    End_Capital r = 0.
Proof.
  eexists _, _. split; [vm_compute; reflexivity|].
  repeat split; vm_compute; reflexivity.
Qed.

(** ** The bisection loop *)

Section SolverFacts.

Variable current_year : Z.
Variables start_capital annual_return inflation : Q.
Variables tax_threshold1 tax_rate1 tax_rate2 dividend_tax : Q.
Variable years : Z.

Local Abbreviation simulate_with w :=
  (simulate_withdrawal current_year start_capital annual_return inflation w
     tax_threshold1 tax_rate1 tax_rate2 dividend_tax years).
Local Abbreviation final :=
  (end_capital_of current_year start_capital annual_return inflation
     tax_threshold1 tax_rate1 tax_rate2 dividend_tax years).
Local Abbreviation search :=
  (bisect current_year start_capital annual_return inflation
     tax_threshold1 tax_rate1 tax_rate2 dividend_tax years).
Local Abbreviation solve :=
  (solve_withdrawal current_year start_capital annual_return inflation
     tax_threshold1 tax_rate1 tax_rate2 dividend_tax years).

Lemma bisect_unfold (fuel : nat) (low high : Q) :
  search fuel low high =
    if Qlt_bool tol (high - low) then
      match fuel with
      | O => None
      | S fuel' =>
          match simulate_with ((low + high) / 2) with
          | Raise e => Some (Raise e)
          | Ok (_, _, end_capital) =>
              if Qlt_bool 0 end_capital
              then search fuel' ((low + high) / 2) high
              else search fuel' low ((low + high) / 2)
          end
      end
    else Some (Ok (low, high)).
Proof.
  destruct fuel; reflexivity.
Qed.

Lemma bisect_narrow_enough (fuel : nat) (low high : Q) :
  high - low <= tol -> search fuel low high = Some (Ok (low, high)).
Proof.
  intro H. rewrite bisect_unfold. apply Qlt_bool_false in H. now rewrite H.
Qed.

(** Fuel is only a bound: once the loop has stopped, more fuel changes
    nothing. *)
Lemma bisect_more_fuel (fuel : nat) :
  forall low high r,
    search fuel low high = Some r ->
    forall fuel', (fuel <= fuel')%nat -> search fuel' low high = Some r.
Proof.
  induction fuel as [|fuel IH]; intros low high r H fuel' Hle;
    rewrite bisect_unfold in H; rewrite bisect_unfold;
    destruct (Qlt_bool tol (high - low)); try discriminate; try exact H.
  destruct fuel' as [|fuel']; [lia|].
  destruct (simulate_with ((low + high) / 2)) as [[[dat dep] c]|e];
    [|exact H].
  destruct (Qlt_bool 0 c); apply (IH _ _ _ H); lia.
Qed.

Lemma pow2_succ (n : nat) :
  inject_Z (2 ^ Z.of_nat (S n)) == 2 * inject_Z (2 ^ Z.of_nat n).
Proof.
  rewrite Nat2Z.inj_succ, Z.pow_succ_r by lia. now rewrite inject_Z_mult.
Qed.

(** An interval of width at most [2 ^ n] is narrowed to the tolerance in
    at most [n] iterations. *)
Lemma bisect_converges (n : nat) :
  ~ 1 - dividend_tax == 0 ->
  forall low high, high - low <= inject_Z (2 ^ Z.of_nat n) ->
  forall fuel, (n <= fuel)%nat ->
  exists l h, search fuel low high = Some (Ok (l, h)) /\ h - l <= tol.
Proof.
  intro Hnz. induction n as [|n IH]; intros low high Hw fuel Hfuel.
  - exists low, high. split; [|exact Hw]. now apply bisect_narrow_enough.
  - rewrite bisect_unfold.
    destruct (Qlt_bool tol (high - low)) eqn:E.
    + destruct fuel as [|fuel]; [lia|].
      destruct (simulate_returns current_year start_capital annual_return
                  inflation ((low + high) / 2) tax_threshold1 tax_rate1
                  tax_rate2 dividend_tax years Hnz)
        as (rows & dep & fin & ->).
      rewrite pow2_succ in Hw.
      generalize dependent (inject_Z (2 ^ Z.of_nat n)). intros p IH Hw.
      pose proof (midpoint_eq low high) as Hmid.
      destruct (Qlt_bool 0 fin); apply IH; try lia; lra.
    + exists low, high. split; [reflexivity|]. now apply Qlt_bool_false in E.
Qed.

Lemma bisect_bound_covers :
  start_capital * 2 - 0
    <= inject_Z (2 ^ Z.of_nat (bisect_bound start_capital)).
Proof.
  unfold bisect_bound.
  rewrite Z2Nat.id by apply Z.log2_up_nonneg.
  set (z := Qceiling (start_capital * 2)).
  assert (Hz : (z <= 2 ^ Z.log2_up z)%Z).
  { destruct (Z_lt_le_dec 0 z) as [Hpos|Hneg].
    - apply Z.log2_log2_up_spec. exact Hpos.
    - rewrite Z.log2_up_eqn0 by lia. simpl. lia. }
  pose proof (Qle_ceiling (start_capital * 2)) as Hc. fold z in Hc.
  rewrite Zle_Qle in Hz. lra.
Qed.

(** In exact arithmetic, for a start capital that is not negative and a
    dividend tax rate other than 1, the loop started on
    [0, 2 * start capital] stops within [bisect_bound] iterations, on an
    interval no wider than the tolerance, and the value computed after it
    is the midpoint of that interval.  Whether the loop as run, in
    binary64, stops is settled further down. *)
Theorem bisection_terminates (fuel : nat) :
  0 <= start_capital ->
  ~ 1 - dividend_tax == 0 ->
  (bisect_bound start_capital <= fuel)%nat ->
  exists low high,
    bisect current_year start_capital annual_return inflation tax_threshold1
      tax_rate1 tax_rate2 dividend_tax years fuel 0 (start_capital * 2)
      = Some (Ok (low, high)) /\
    high - low <= tol /\
    solve_withdrawal current_year start_capital annual_return inflation
      tax_threshold1 tax_rate1 tax_rate2 dividend_tax years fuel
      = Some (Ok ((low + high) / 2)).
Proof.
  intros _ Hnz Hfuel.
  destruct (bisect_converges (bisect_bound start_capital) Hnz
              0 (start_capital * 2) bisect_bound_covers fuel Hfuel)
    as (l & h & Hrun & Hw).
  exists l, h. unfold solve_withdrawal. rewrite Hrun. auto.
Qed.

(** C8.  With a start capital of zero the loop body is never entered,
    whatever the fuel and the other parameters, and the value computed is
    zero. *)
Theorem zero_capital_solves_to_zero (fuel : nat) :
  start_capital == 0 ->
  bisect current_year start_capital annual_return inflation tax_threshold1
    tax_rate1 tax_rate2 dividend_tax years fuel 0 (start_capital * 2)
    = Some (Ok (0, start_capital * 2)) /\
  solve_withdrawal current_year start_capital annual_return inflation
    tax_threshold1 tax_rate1 tax_rate2 dividend_tax years fuel
    = Some (Ok ((0 + start_capital * 2) / 2)) /\
  (0 + start_capital * 2) / 2 == 0.
Proof.
  intro H0.
  assert (Hrun : search fuel 0 (start_capital * 2)
                 = Some (Ok (0, start_capital * 2))).
  { apply bisect_narrow_enough. unfold tol. lra. }
  split; [exact Hrun|]. unfold solve_withdrawal. rewrite Hrun.
  split; [reflexivity|].
  pose proof (midpoint_eq 0 (start_capital * 2)). lra.
Qed.

Lemma end_capital_of_nonneg (w c : Q) :
  0 <= start_capital -> final w = Some c -> 0 <= c.
Proof.
  intros H0 H. unfold end_capital_of in H.
  destruct (simulate_with w) as [[[dat dep] fin]|e] eqn:Hs; [|discriminate].
  injection H as ->.
  destruct (simulate_returns_trace _ _ _ _ _ _ _ _ _ _ _ _ _ Hs)
    as (rows & _ & Htr & _).
  exact (trace_final_nonneg _ _ _ _ _ _ _ _ _ _ _ _ _ Htr H0).
Qed.

(** Reading the final capital of the run that follows the loop. *)
Lemma solved_end_capital_above (fuel : nat) (bound : Q) :
  option_map (Qlt_bool bound)
    (solved_end_capital current_year start_capital annual_return inflation
       tax_threshold1 tax_rate1 tax_rate2 dividend_tax years fuel)
    = Some true ->
  exists w fin,
    solve fuel = Some (Ok w) /\ final w = Some fin /\ bound < fin.
Proof.
  unfold solved_end_capital. intro H.
  destruct (solve fuel) as [[w|e]|]; try discriminate.
  destruct (final w) as [fin|] eqn:Hfin; try discriminate.
  exists w, fin. split; [reflexivity|]. split; [exact Hfin|].
  simpl in H. injection H as H. now apply Qlt_bool_true.
Qed.

(** The loop keeps its interval ordered and inside the one it started
    from, and keeps what it learnt at the two ends: the lower end is still
    the initial 0 or a withdrawal that leaves capital, the upper end is
    still the initial bound or a withdrawal that leaves none. *)
Lemma bisect_bracket (fuel : nat) :
  forall low high l h,
    search fuel low high = Some (Ok (l, h)) ->
    low <= high ->
    (low = 0 \/ exists c, final low = Some c /\ 0 < c) ->
    (high = start_capital * 2 \/ exists c, final high = Some c /\ c <= 0) ->
    low <= l /\ l <= h /\ h <= high /\ h - l <= tol /\
    (l = 0 \/ exists c, final l = Some c /\ 0 < c) /\
    (h = start_capital * 2 \/ exists c, final h = Some c /\ c <= 0).
Proof.
  induction fuel as [|fuel IH]; intros low high l h H Hle Hlow Hhigh;
    rewrite bisect_unfold in H;
    destruct (Qlt_bool tol (high - low)) eqn:E;
    try discriminate;
    try (injection H as <- <-; apply Qlt_bool_false in E;
         repeat split; auto; lra).
  destruct (simulate_with ((low + high) / 2))
    as [[[dat dep] c]|e] eqn:Hs; [|discriminate].
  pose proof (midpoint_eq low high) as Hmid.
  assert (Hfin : final ((low + high) / 2) = Some c)
    by (unfold end_capital_of; now rewrite Hs).
  destruct (Qlt_bool 0 c) eqn:Ec.
  - apply Qlt_bool_true in Ec.
    destruct (IH _ _ _ _ H) as (H1 & H2 & H3 & H4 & H5 & H6);
      [lra | right; eauto | exact Hhigh |].
    repeat split; auto; lra.
  - apply Qlt_bool_false in Ec.
    destruct (IH _ _ _ _ H) as (H1 & H2 & H3 & H4 & H5 & H6);
      [lra | exact Hlow | right; eauto |].
    repeat split; auto; lra.
Qed.

(** C4, amended.  For a start capital that is not negative and a dividend
    tax rate other than 1, the value the solver returns is the midpoint of
    an interval inside [0, 2 * start capital], no wider than the
    tolerance, whose lower end is 0 or leaves a positive final capital and
    whose upper end is 2 * start capital or leaves a final capital of
    zero.  The run with the returned value has at most [years] periods and
    a final capital that is not negative; how far above zero it ends is
    not bounded by the tolerance. *)
Theorem solver_brackets_depletion (fuel : nat) (w : Q) :
  0 <= start_capital ->
  ~ 1 - dividend_tax == 0 ->
  solve_withdrawal current_year start_capital annual_return inflation
    tax_threshold1 tax_rate1 tax_rate2 dividend_tax years fuel
    = Some (Ok w) ->
  exists low high,
    w = (low + high) / 2 /\
    0 <= low /\ low <= high /\ high <= start_capital * 2 /\
    high - low <= tol /\
    (low = 0 \/
     exists c,
       end_capital_of current_year start_capital annual_return inflation
         tax_threshold1 tax_rate1 tax_rate2 dividend_tax years low = Some c /\
       0 < c) /\
    (high = start_capital * 2 \/
     exists c,
       end_capital_of current_year start_capital annual_return inflation
         tax_threshold1 tax_rate1 tax_rate2 dividend_tax years high = Some c /\
       c == 0) /\
    exists dat dep fin,
      simulate_withdrawal current_year start_capital annual_return inflation
        w tax_threshold1 tax_rate1 tax_rate2 dividend_tax years
        = Ok (dat, dep, fin) /\
      0 <= fin /\ (length dat <= 1 + Z.to_nat years)%nat.
Proof.
  intros H0 Hnz H. unfold solve_withdrawal in H.
  destruct (search fuel 0 (start_capital * 2)) as [[[low high]|e]|] eqn:Hrun;
    try discriminate.
  injection H as <-.
  destruct (bisect_bracket fuel _ _ _ _ Hrun) as (H1 & H2 & H3 & H4 & H5 & H6);
    [lra | now left | now left |].
  exists low, high. repeat split; auto.
  - destruct H6 as [H6|(c & Hc & Hle)]; [now left|right].
    exists c. split; [exact Hc|].
    pose proof (end_capital_of_nonneg _ _ H0 Hc). lra.
  - destruct (simulate_returns current_year start_capital annual_return
                inflation ((low + high) / 2) tax_threshold1 tax_rate1
                tax_rate2 dividend_tax years Hnz)
      as (rows & dep & fin & Hs).
    destruct (simulate_returns_trace _ _ _ _ _ _ _ _ _ _ _ _ _ Hs)
      as (rows' & Heq & Htr & Hlen & _).
    injection Heq as <-.
    exists (year0 current_year start_capital :: rows), dep, fin.
    split; [exact Hs|]. split.
    + exact (trace_final_nonneg _ _ _ _ _ _ _ _ _ _ _ _ _ Htr H0).
    + simpl. lia.
Qed.

End SolverFacts.

(** ** A larger withdrawal *)

Section Monotone.

Variable current_year : Z.
Variables start_capital annual_return inflation : Q.
Variables tax_threshold1 tax_rate1 tax_rate2 dividend_tax : Q.
Variables w1 w2 : Q.

Hypothesis dividend_tax_below_1 : 0 < 1 - dividend_tax.
Hypothesis tax_rate1_range : 0 <= tax_rate1 /\ tax_rate1 <= 1.
Hypothesis tax_rate2_range : 0 <= tax_rate2 /\ tax_rate2 <= 1.
Hypothesis return_above_total_loss : 0 <= 1 + annual_return.
Hypothesis inflation_above_total_loss : 0 <= 1 + inflation.
Hypothesis larger_withdrawal : w1 <= w2.

Local Abbreviation tax := (profit_tax_of tax_threshold1 tax_rate1 tax_rate2).
Local Abbreviation projected w :=
  (projected_of annual_return inflation w
     tax_threshold1 tax_rate1 tax_rate2 dividend_tax).
Local Abbreviation clamp w :=
  (clamped annual_return inflation w
     tax_threshold1 tax_rate1 tax_rate2 dividend_tax).
Local Abbreviation row w :=
  (period_row current_year annual_return inflation w
     tax_threshold1 tax_rate1 tax_rate2 dividend_tax).
Local Abbreviation loop w :=
  (for_years current_year annual_return inflation w
     tax_threshold1 tax_rate1 tax_rate2 dividend_tax).
Local Abbreviation simulate w :=
  (simulate_withdrawal current_year start_capital annual_return inflation w
     tax_threshold1 tax_rate1 tax_rate2 dividend_tax).

Lemma divisor_not_zero : ~ 1 - dividend_tax == 0.
Proof.
  intro H. rewrite H in dividend_tax_below_1.
  exact (Qlt_irrefl 0 dividend_tax_below_1).
Qed.

(** What is left of a profit after tax grows with the profit, and no
    faster than the profit. *)
Lemma after_tax_slope (p q : Q) :
  p <= q ->
  p - tax p <= q - tax q /\ (q - tax q) - (p - tax p) <= q - p.
Proof.
  intro Hpq. unfold profit_tax_of.
  destruct tax_rate1_range as [Ha1 Hb1], tax_rate2_range as [Ha2 Hb2].
  destruct (Qle_bool p tax_threshold1) eqn:Ep;
    destruct (Qle_bool q tax_threshold1) eqn:Eq.
  - assert (0 <= (q - p) * tax_rate1) by (apply Qmult_le_0_compat; lra).
    assert (0 <= (q - p) * (1 - tax_rate1))
      by (apply Qmult_le_0_compat; lra).
    split; lra.
  - apply Qle_bool_iff in Ep.
    assert (Hq : tax_threshold1 <= q).
    { apply Qlt_le_weak, Qnot_le_lt. intro Hc.
      apply Qle_bool_iff in Hc. congruence. }
    assert (0 <= (tax_threshold1 - p) * tax_rate1)
      by (apply Qmult_le_0_compat; lra).
    assert (0 <= (tax_threshold1 - p) * (1 - tax_rate1))
      by (apply Qmult_le_0_compat; lra).
    assert (0 <= (q - tax_threshold1) * tax_rate2)
      by (apply Qmult_le_0_compat; lra).
    assert (0 <= (q - tax_threshold1) * (1 - tax_rate2))
      by (apply Qmult_le_0_compat; lra).
    split; lra.
  - apply Qle_bool_iff in Eq.
    assert (Hp : tax_threshold1 < p).
    { apply Qnot_le_lt. intro Hc. apply Qle_bool_iff in Hc. congruence. }
    lra.
  - assert (0 <= (q - p) * tax_rate2) by (apply Qmult_le_0_compat; lra).
    assert (0 <= (q - p) * (1 - tax_rate2))
      by (apply Qmult_le_0_compat; lra).
    split; lra.
Qed.

(** Capital plus profit after tax grows with the capital. *)
Lemma growth_monotone (c1 c2 : Q) :
  c2 <= c1 ->
  c2 + c2 * annual_return - tax (c2 * annual_return)
    <= c1 + c1 * annual_return - tax (c1 * annual_return).
Proof.
  intro Hc.
  destruct (Qlt_le_dec annual_return 0) as [Hneg|Hpos].
  - assert (Hp : c1 * annual_return <= c2 * annual_return).
    { assert (0 <= (c1 - c2) * (- annual_return))
        by (apply Qmult_le_0_compat; lra).
      lra. }
    destruct (after_tax_slope _ _ Hp) as [_ Hslope].
    assert (0 <= (c1 - c2) * (1 + annual_return))
      by (apply Qmult_le_0_compat; lra).
    lra.
  - assert (Hp : c2 * annual_return <= c1 * annual_return).
    { assert (0 <= (c1 - c2) * annual_return)
        by (apply Qmult_le_0_compat; lra).
      lra. }
    destruct (after_tax_slope _ _ Hp) as [Hup _]. lra.
Qed.

(** The gross withdrawal of a period grows with the base withdrawal. *)
Lemma gross_monotone (year : Z) :
  gross_of inflation w1 dividend_tax year
    <= gross_of inflation w2 dividend_tax year.
Proof.
  unfold gross_of, adjusted_net_of, Qdiv.
  apply Qmult_le_compat_r.
  - apply Qmult_le_compat_r; [exact larger_withdrawal|].
    apply Qpower_0_le. exact inflation_above_total_loss.
  - apply Qlt_le_weak, Qinv_lt_0_compat. exact dividend_tax_below_1.
Qed.

Lemma projected_monotone (year : Z) (c1 c2 : Q) :
  c2 <= c1 -> projected w2 year c2 <= projected w1 year c1.
Proof.
  intro Hc. unfold projected_of.
  pose proof (growth_monotone _ _ Hc). pose proof (gross_monotone year).
  lra.
Qed.

(** The loop returns a state with at least the rows it started with and,
    from a capital that is not negative, a capital that is not negative. *)
Lemma for_years_grows (w : Q) (n : nat) (year : Z) (s r : sim_state) :
  loop w n year s = Ok r ->
  capital_depleted s = false ->
  0 <= capital s ->
  0 <= capital r /\ (length (data s) <= length (data r))%nat.
Proof.
  intros H Hs H0.
  destruct (for_years_trace current_year annual_return inflation w
              tax_threshold1 tax_rate1 tax_rate2 dividend_tax n
              divisor_not_zero year s Hs)
    as (rows & c' & b & Hrun & Htr & _).
  rewrite Hrun in H. injection H as <-. simpl. split.
  - exact (trace_final_nonneg _ _ _ _ _ _ _ _ _ _ _ _ _ Htr H0).
  - rewrite length_app. lia.
Qed.

(** Two runs of the loop in step, the second with the larger withdrawal
    and no more capital than the first. *)
Lemma for_years_monotone (n : nat) :
  forall year s1 s2 r1 r2,
    loop w1 n year s1 = Ok r1 ->
    loop w2 n year s2 = Ok r2 ->
    capital_depleted s1 = false ->
    capital_depleted s2 = false ->
    capital s2 <= capital s1 ->
    length (data s2) = length (data s1) ->
    capital r2 <= capital r1 /\
    (capital_depleted r1 = true ->
     capital_depleted r2 = true /\
     (length (data r2) <= length (data r1))%nat).
Proof.
  pose proof divisor_not_zero as Hnz.
  induction n as [|n IH]; intros year s1 s2 r1 r2 H1 H2 Hf1 Hf2 Hc Hlen.
  - simpl in H1, H2. injection H1 as <-. injection H2 as <-.
    split; [exact Hc|]. congruence.
  - simpl in H1, H2.
    rewrite (loop_body_returns _ _ _ _ _ _ _ _ _ _ Hnz) in H1.
    rewrite (loop_body_returns _ _ _ _ _ _ _ _ _ _ Hnz) in H2.
    simpl in H1, H2. rewrite Hf1, Hf2, !orb_false_r, !row_end_capital in *.
    pose proof (projected_monotone year _ _ Hc) as Hproj.
    destruct (clamp w1 year (capital s1)) eqn:E1;
      destruct (clamp w2 year (capital s2)) eqn:E2.
    + injection H1 as <-. injection H2 as <-. simpl.
      split; [apply Qle_refl|]. intros _. split; [reflexivity|].
      rewrite !length_app. simpl. lia.
    + apply Qlt_bool_true in E1. apply Qlt_bool_false in E2. lra.
    + injection H2 as <-. simpl.
      apply Qlt_bool_false in E1.
      destruct (for_years_grows _ _ _ _ _ H1 eq_refl E1) as [Hr Hl].
      simpl in Hl. rewrite length_app in Hl. simpl in Hl.
      split; [exact Hr|]. intros _. split; [reflexivity|].
      rewrite length_app. simpl. lia.
    + apply (IH _ _ _ _ _ H1 H2); simpl; auto.
      rewrite !length_app. simpl. lia.
Qed.


End Monotone.

(** * Worked inputs

    The parameters are the defaults of the widgets (return 4%, inflation
    2%, threshold 200000, tax rates 19% and 25.8%, dividend tax 25%)
    unless said otherwise; the year of the run is taken to be 2024. *)

(** The first period at the defaults: a profit of 120000 taxed at 19%, a
    net withdrawal of 30000 grossed up to 40000, and 3057200 left. *)
Example default_first_period :
  exists r fin,
    simulate_withdrawal 2024 3000000 (4 # 100) (2 # 100) 30000
      200000 (19 # 100) (258 # 1000) (25 # 100) 1
      = Ok ([year0 2024 3000000; r], false, fin) /\
    fin = End_Capital r /\ Year r = 2025%Z /\
    Profit r == 120000 /\ Profit_Tax r == 22800 /\
    Net_Withdrawal r == 30000 /\ Gross_Withdrawal r == 40000 /\
    Dividend_Tax r == 10000 /\ End_Capital r == 3057200.
Proof.
  eexists _, _. split; [vm_compute; reflexivity|].
  repeat split.
Qed.

(** C1 at the defaults, two periods. *)
Lemma end_capital_never_negative_witness :
  exists dat dep fin,
    0 <= 3000000 /\
    simulate_withdrawal 2024 3000000 (4 # 100) (2 # 100) 30000
      200000 (19 # 100) (258 # 1000) (25 # 100) 2 = Ok (dat, dep, fin) /\
    Forall (fun r => 0 <= End_Capital r) dat.
Proof.
  eexists _, _, _.
  assert (H0 : 0 <= 3000000) by lra.
  split; [exact H0|].
  split; [vm_compute; reflexivity|].
  eapply (end_capital_never_negative 2024 3000000 (4 # 100) (2 # 100) 30000
            200000 (19 # 100) (258 # 1000) (25 # 100) 2 _ _ _ H0).
  vm_compute. reflexivity.
Defined.


(** C9 at the defaults: the row of the first period. *)
Lemma withdrawal_split_witness :
  exists dat dep fin r,
    simulate_withdrawal 2024 3000000 (4 # 100) (2 # 100) 30000
      200000 (19 # 100) (258 # 1000) (25 # 100) 2 = Ok (dat, dep, fin) /\
    nth_error dat 1 = Some r /\
    Net_Withdrawal r == Gross_Withdrawal r * (1 - (25 # 100)) /\
    Net_Withdrawal r + Dividend_Tax r == Gross_Withdrawal r.
Proof.
  eexists _, _, _, _.
  split; [vm_compute; reflexivity|].
  split; [reflexivity|].
  eapply (withdrawal_split 2024 3000000 (4 # 100) (2 # 100) 30000
            200000 (19 # 100) (258 # 1000) (25 # 100) 2 _ _ _ 0%nat).
  - vm_compute. reflexivity.
  - reflexivity.
Defined.

(** C3 does not hold as stated: with a low rate of 0% and a return of
    -10%, the profit of the first period is negative and its tax is zero,
    not negative. *)
Lemma negative_profit_zero_tax :
  exists dat dep fin r,
    simulate_withdrawal 2024 3000000 (- (10 # 100)) (2 # 100) 30000
      200000 0 (258 # 1000) (25 # 100) 2 = Ok (dat, dep, fin) /\
    nth_error dat 1 = Some r /\
    Profit r < 0 /\ Profit_Tax r == 0 /\ ~ Profit_Tax r < 0.
Proof.
  eexists _, _, _, _.
  split; [vm_compute; reflexivity|].
  split; [reflexivity|].
  split; [vm_compute; reflexivity|].
  split; [vm_compute; reflexivity|].
  intro H. vm_compute in H. discriminate.
Defined.

(** C3, amended, on a return of -10% at the default rates: a profit of
    -300000 and a tax of -57000. *)
Lemma profit_tax_two_brackets_witness :
  exists dat dep fin r,
    simulate_withdrawal 2024 3000000 (- (10 # 100)) (2 # 100) 30000
      200000 (19 # 100) (258 # 1000) (25 # 100) 1 = Ok (dat, dep, fin) /\
    nth_error dat 0 = Some (year0 2024 3000000) /\
    nth_error dat 1 = Some r /\
    Profit r = 3000000 * - (10 # 100) /\
    Profit_Tax r = Profit r * (19 # 100) /\
    Profit_Tax r < 0.
Proof.
  eexists _, _, _, _.
  split; [vm_compute; reflexivity|].
  split; [reflexivity|]. split; [reflexivity|].
  destruct (profit_tax_two_brackets 2024 3000000 (- (10 # 100)) (2 # 100)
              30000 200000 (19 # 100) (258 # 1000) (25 # 100) 1 _ _ _ 0%nat
              (year0 2024 3000000) _ eq_refl eq_refl eq_refl)
    as (Hprofit & _ & _ & Hneg).
  split; [exact Hprofit|].
  assert (H1 : 3000000 * - (10 # 100) * (19 # 100) < 0)
    by (vm_compute; reflexivity).
  destruct Hneg as (Htax & Hcredit & _).
  - vm_compute. reflexivity.
  - vm_compute. discriminate.
  - split; [exact Htax|]. apply Hcredit. vm_compute. reflexivity.
Defined.

(** C4 does not hold as stated: at the defaults with a horizon of three
    years the loop stops within 23 iterations, and the run with the value
    it returns ends with more than one euro of capital. *)
Lemma solver_leaves_more_than_tolerance :
  exists w fin,
    solve_withdrawal 2024 3000000 (4 # 100) (2 # 100)
      200000 (19 # 100) (258 # 1000) (25 # 100) 3 23 = Some (Ok w) /\
    end_capital_of 2024 3000000 (4 # 100) (2 # 100)
      200000 (19 # 100) (258 # 1000) (25 # 100) 3 w = Some fin /\
    tol < fin.
Proof.
  apply solved_end_capital_above. vm_compute. reflexivity.
Defined.


(** C4, amended, on a capital of 100 over one year: eight iterations. *)
Lemma solver_brackets_depletion_witness :
  exists w low high,
    0 <= 100 /\ ~ 1 - (25 # 100) == 0 /\
    solve_withdrawal 2024 100 (4 # 100) (2 # 100)
      200000 (19 # 100) (258 # 1000) (25 # 100) 1 8 = Some (Ok w) /\
    w = (low + high) / 2 /\
    0 <= low /\ low <= high /\ high <= 100 * 2 /\ high - low <= tol.
Proof.
  assert (H0 : 0 <= 100) by lra.
  assert (Hnz : ~ 1 - (25 # 100) == 0) by lra.
  assert (Hs : solve_withdrawal 2024 100 (4 # 100) (2 # 100)
                 200000 (19 # 100) (258 # 1000) (25 # 100) 1 8
               = Some (Ok (2800676018271027200 # 36028797018963968)))
    by (vm_compute; reflexivity).
  destruct (solver_brackets_depletion 2024 100 (4 # 100) (2 # 100)
              200000 (19 # 100) (258 # 1000) (25 # 100) 1 8 _ H0 Hnz Hs)
    as (low & high & Hw & Hlow & Hle & Hhigh & Hwidth & _).
  exists (2800676018271027200 # 36028797018963968), low, high.
  repeat (split; [assumption|]). exact Hwidth.
Defined.



(** C6 does not hold as stated: a horizon of -5 years is answered with the
    year-0 row, and a start capital of -100000 is simulated (its first
    period is clamped). *)
Lemma negative_inputs_are_simulated :
  simulate_withdrawal 2024 3000000 (4 # 100) (2 # 100) 30000
    200000 (19 # 100) (258 # 1000) (25 # 100) (- 5)
    = Ok ([year0 2024 3000000], false, 3000000) /\
  exists r,
    simulate_withdrawal 2024 (- 100000) (4 # 100) (2 # 100) 30000
      200000 (19 # 100) (258 # 1000) (25 # 100) 1
      = Ok ([year0 2024 (- 100000); r], true, 0) /\
    End_Capital (year0 2024 (- 100000)) < 0.
Proof.
  split; [reflexivity|].
  eexists. split; [vm_compute; reflexivity|]. reflexivity.
Defined.

(** C6, amended, at a dividend tax rate of 100%, at a horizon of -5 years,
    and at a start capital of -100000. *)
Lemma no_parameter_validation_witness :
  simulate_withdrawal 2024 3000000 (4 # 100) (2 # 100) 30000
    200000 (19 # 100) (258 # 1000) 1 35 = Raise ZeroDivisionError /\
  simulate_withdrawal 2024 3000000 (4 # 100) (2 # 100) 30000
    200000 (19 # 100) (258 # 1000) (25 # 100) (- 5)
    = Ok ([year0 2024 3000000], false, 3000000) /\
  exists rows dep fin,
    simulate_withdrawal 2024 (- 100000) (4 # 100) (2 # 100) 30000
      200000 (19 # 100) (258 # 1000) (25 # 100) 1
      = Ok (year0 2024 (- 100000) :: rows, dep, fin) /\
    End_Capital (year0 2024 (- 100000)) = - 100000.
Proof.
  split; [|split].
  - apply (no_parameter_validation 2024 3000000 (4 # 100) (2 # 100) 30000
             200000 (19 # 100) (258 # 1000) 1 35); [reflexivity | lia].
  - apply (no_parameter_validation 2024 3000000 (4 # 100) (2 # 100) 30000
             200000 (19 # 100) (258 # 1000) (25 # 100) (- 5)). lia.
  - apply (no_parameter_validation 2024 (- 100000) (4 # 100) (2 # 100) 30000
             200000 (19 # 100) (258 # 1000) (25 # 100) 1). lra.
Defined.

(** The same in exact arithmetic on a capital of 100: eight iterations
    suffice. *)
Lemma bisection_terminates_witness :
  0 <= 100 /\ ~ 1 - (25 # 100) == 0 /\ (bisect_bound 100 <= 8)%nat /\
  exists low high,
    bisect 2024 100 (4 # 100) (2 # 100)
      200000 (19 # 100) (258 # 1000) (25 # 100) 1 8 0 (100 * 2)
      = Some (Ok (low, high)) /\
    high - low <= tol /\
    solve_withdrawal 2024 100 (4 # 100) (2 # 100)
      200000 (19 # 100) (258 # 1000) (25 # 100) 1 8
      = Some (Ok ((low + high) / 2)).
Proof.
  assert (H0 : 0 <= 100) by lra.
  assert (Hnz : ~ 1 - (25 # 100) == 0) by lra.
  assert (Hfuel : (bisect_bound 100 <= 8)%nat) by (vm_compute; lia).
  repeat (split; [assumption|]).
  exact (bisection_terminates 2024 100 (4 # 100) (2 # 100)
           200000 (19 # 100) (258 # 1000) (25 # 100) 1 8 H0 Hnz Hfuel).
Defined.

(** C8 at a start capital of 0, with no fuel at all. *)
Lemma zero_capital_solves_to_zero_witness :
  0 == 0 /\
  solve_withdrawal 2024 0 (4 # 100) (2 # 100)
    200000 (19 # 100) (258 # 1000) (25 # 100) 35 0
    = Some (Ok ((0 + 0 * 2) / 2)) /\
  (0 + 0 * 2) / 2 == 0.
Proof.
  assert (H0 : 0 == 0) by reflexivity.
  split; [exact H0|].
  exact (proj2 (zero_capital_solves_to_zero 2024 0 (4 # 100) (2 # 100)
                  200000 (19 # 100) (258 # 1000) (25 # 100) 35 0 H0)).
Defined.

(** * More about the table *)

Section TableFacts.

Variable current_year : Z.
Variables start_capital annual_return inflation net_withdrawal : Q.
Variables tax_threshold1 tax_rate1 tax_rate2 dividend_tax : Q.

Local Abbreviation loop :=
  (for_years current_year annual_return inflation net_withdrawal
     tax_threshold1 tax_rate1 tax_rate2 dividend_tax).
Local Abbreviation simulate :=
  (simulate_withdrawal current_year start_capital annual_return inflation
     net_withdrawal tax_threshold1 tax_rate1 tax_rate2 dividend_tax).
Local Abbreviation row :=
  (period_row current_year annual_return inflation net_withdrawal
     tax_threshold1 tax_rate1 tax_rate2 dividend_tax).
Local Abbreviation projected :=
  (projected_of annual_return inflation net_withdrawal
     tax_threshold1 tax_rate1 tax_rate2 dividend_tax).
Local Abbreviation clamp :=
  (clamped annual_return inflation net_withdrawal
     tax_threshold1 tax_rate1 tax_rate2 dividend_tax).
Local Abbreviation gross := (gross_of inflation net_withdrawal dividend_tax).
Local Abbreviation target := (adjusted_net_of inflation net_withdrawal).
Local Abbreviation tax := (profit_tax_of tax_threshold1 tax_rate1 tax_rate2).
Local Abbreviation run :=
  (trace current_year annual_return inflation net_withdrawal
     tax_threshold1 tax_rate1 tax_rate2 dividend_tax).
Local Abbreviation first_row := (year0 current_year start_capital).

(** A loop that ends with the flag unset has run all its iterations. *)
Lemma for_years_full (n : nat) :
  ~ 1 - dividend_tax == 0 ->
  forall year s r,
    loop n year s = Ok r ->
    capital_depleted s = false ->
    capital_depleted r = false ->
    length (data r) = (length (data s) + n)%nat.
Proof.
  intro Hnz. induction n as [|n IH]; intros year s r H Hs Hr.
  - simpl in H. injection H as <-. lia.
  - simpl in H. rewrite (loop_body_returns _ _ _ _ _ _ _ _ _ _ Hnz) in H.
    simpl in H. rewrite Hs, orb_false_r in H.
    destruct (clamped _ _ _ _ _ _ _ _ _) eqn:E.
    + injection H as <-. discriminate.
    + rewrite (IH _ _ _ H eq_refl Hr). simpl. rewrite length_app. simpl. lia.
Qed.

(** The last row of a table carries the capital the loop ends with. *)
Lemma trace_last (year : Z) (c : Q) rows c' b :
  run year c rows c' b ->
  forall r0, End_Capital r0 = c ->
  exists r,
    nth_error (r0 :: rows) (length rows) = Some r /\ End_Capital r = c'.
Proof.
  induction 1 as [year c | year c Hc | year c rows c' b Hc Htr IH];
    intros r0 H0.
  - exists r0. auto.
  - exists (row year c). split; [reflexivity|].
    now rewrite row_end_capital, Hc.
  - destruct (IH (row year c)) as (r & Hr & Hend).
    + now rewrite row_end_capital, Hc.
    + exists r. auto.
Qed.

Lemma trace_years (year : Z) (c : Q) rows c' b :
  run year c rows c' b ->
  forall k r, nth_error rows k = Some r ->
  Year r = (current_year + (year + Z.of_nat k))%Z.
Proof.
  assert (Hy : forall y c0, Year (row y c0) = (current_year + y)%Z).
  { intros. unfold period_row. now destruct (clamped _ _ _ _ _ _ _ _ _). }
  induction 1 as [year c | year c Hc | year c rows c' b Hc Htr IH];
    intros k r Hr.
  - destruct k; discriminate.
  - destruct k as [|k]; [|destruct k; discriminate].
    injection Hr as <-. rewrite Hy. f_equal. simpl. lia.
  - destruct k as [|k]; simpl in Hr.
    + injection Hr as <-. rewrite Hy. f_equal. simpl. lia.
    + rewrite (IH _ _ Hr). lia.
Qed.

Lemma row_conservation (year : Z) (c : Q) :
  End_Capital (row year c)
    == c + Profit (row year c) - Profit_Tax (row year c)
       - Gross_Withdrawal (row year c).
Proof.
  unfold period_row. destruct (clamped _ _ _ _ _ _ _ _ _); simpl.
  - unfold projected_of. ring.
  - unfold projected_of. reflexivity.
Qed.

(** X1.  The table starts with the year-0 row and has at most one row per
    year of the horizon after it; it has all of them when the flag is not
    set, and at least one of them when the flag is set or the horizon is
    at least one year. *)
Theorem table_shape (years : Z) dat dep fin :
  simulate_withdrawal current_year start_capital annual_return inflation
    net_withdrawal tax_threshold1 tax_rate1 tax_rate2 dividend_tax years
    = Ok (dat, dep, fin) ->
  nth_error dat 0 = Some (year0 current_year start_capital) /\
  (length dat <= 1 + Z.to_nat years)%nat /\
  (dep = false -> length dat = (1 + Z.to_nat years)%nat) /\
  (dep = true \/ (1 <= years)%Z -> (2 <= length dat)%nat).
Proof.
  intro H.
  destruct (simulate_returns_trace _ _ _ _ _ _ _ _ _ _ _ _ _ H)
    as (rows & -> & Htr & Hlen & Hd).
  assert (Hfull : dep = false -> length rows = Z.to_nat years).
  { intro Hdep. unfold simulate_withdrawal in H.
    destruct (loop _ _ _) as [r|e] eqn:L; [|discriminate].
    simpl in H. injection H as Hdat Hflag Hcap.
    destruct (Qeq_dec (1 - dividend_tax) 0) as [Hz|Hnz].
    - destruct (Z.to_nat years) as [|n]; [|].
      + destruct rows; [reflexivity | simpl in Hlen; lia].
      + rewrite (for_years_raises _ _ _ _ _ _ _ _ _ _ _ Hz) in L.
        discriminate.
    - rewrite Hdep in Hflag.
      pose proof (for_years_full _ Hnz _ _ _ L eq_refl Hflag) as Hl.
      rewrite Hdat in Hl. simpl in Hl. lia. }
  split; [reflexivity|]. split; [simpl; lia|].
  split; [intro Hdep; simpl; rewrite (Hfull Hdep); reflexivity|].
  intros [Hdep|Hy].
  - destruct (trace_flag _ _ _ _ _ _ _ _ _ _ _ _ _ Htr Hdep) as [_ Hne].
    destruct rows; [congruence | simpl; lia].
  - destruct dep.
    + destruct (trace_flag _ _ _ _ _ _ _ _ _ _ _ _ _ Htr eq_refl) as [_ Hne].
      destruct rows; [congruence | simpl; lia].
    + simpl. rewrite (Hfull eq_refl). lia.
Qed.

(** X2.  The capital the function returns is the end capital of the last
    row of its table, and it is exactly 0 when the flag is set. *)
Theorem final_capital_is_last_row (years : Z) dat dep fin :
  simulate_withdrawal current_year start_capital annual_return inflation
    net_withdrawal tax_threshold1 tax_rate1 tax_rate2 dividend_tax years
    = Ok (dat, dep, fin) ->
  (exists r,
     nth_error dat (Nat.pred (length dat)) = Some r /\ End_Capital r = fin) /\
  (dep = true -> fin = 0).
Proof.
  intro H.
  destruct (simulate_returns_trace _ _ _ _ _ _ _ _ _ _ _ _ _ H)
    as (rows & -> & Htr & _).
  split.
  - exact (trace_last _ _ _ _ _ Htr first_row eq_refl).
  - intro Hdep.
    exact (proj1 (trace_flag _ _ _ _ _ _ _ _ _ _ _ _ _ Htr Hdep)).
Qed.

(** X3.  Row [k] of the table is labelled with the year
    [current_year + k]. *)
Theorem rows_are_consecutive_years (years : Z) dat dep fin (k : nat) r :
  simulate_withdrawal current_year start_capital annual_return inflation
    net_withdrawal tax_threshold1 tax_rate1 tax_rate2 dividend_tax years
    = Ok (dat, dep, fin) ->
  nth_error dat k = Some r ->
  Year r = (current_year + Z.of_nat k)%Z.
Proof.
  intros H Hr.
  destruct (simulate_returns_trace _ _ _ _ _ _ _ _ _ _ _ _ _ H)
    as (rows & -> & Htr & _).
  destruct k as [|k]; simpl in Hr.
  - injection Hr as <-. simpl. lia.
  - rewrite (trace_years _ _ _ _ _ Htr _ _ Hr). lia.
Qed.

(** X4.  In every row after year 0, clamped or not, the end capital is the
    end capital of the row before plus the profit, less the profit tax
    and the gross withdrawal. *)
Theorem capital_is_conserved (years : Z) dat dep fin (k : nat) prev r :
  simulate_withdrawal current_year start_capital annual_return inflation
    net_withdrawal tax_threshold1 tax_rate1 tax_rate2 dividend_tax years
    = Ok (dat, dep, fin) ->
  nth_error dat k = Some prev ->
  nth_error dat (S k) = Some r ->
  End_Capital r
    == End_Capital prev + Profit r - Profit_Tax r - Gross_Withdrawal r.
Proof.
  intros H Hprev Hr.
  destruct (simulate_returns_trace _ _ _ _ _ _ _ _ _ _ _ _ _ H)
    as (rows & -> & Htr & _).
  simpl in Hr.
  destruct (trace_nth _ _ _ _ _ _ _ _ _ _ _ _ _ Htr
              first_row k prev r eq_refl Hprev Hr) as [-> _].
  apply row_conservation.
Qed.

(** X5.  With a dividend tax rate below 1, the net withdrawal of a period
    never exceeds the base withdrawal indexed with inflation; it is that
    amount in every row but a last, clamped one. *)
Theorem net_withdrawal_at_most_target (years : Z) dat dep fin (k : nat)
    prev r :
  0 < 1 - dividend_tax ->
  simulate_withdrawal current_year start_capital annual_return inflation
    net_withdrawal tax_threshold1 tax_rate1 tax_rate2 dividend_tax years
    = Ok (dat, dep, fin) ->
  nth_error dat k = Some prev ->
  nth_error dat (S k) = Some r ->
  Net_Withdrawal r
    <= adjusted_net_of inflation net_withdrawal (Z.of_nat (S k)) /\
  (dep = false \/ (S (S k) < length dat)%nat ->
   Net_Withdrawal r
     = adjusted_net_of inflation net_withdrawal (Z.of_nat (S k))).
Proof.
  intros Hd H Hprev Hr.
  destruct (simulate_returns_trace _ _ _ _ _ _ _ _ _ _ _ _ _ H)
    as (rows & -> & Htr & _).
  simpl in Hr.
  destruct (trace_nth _ _ _ _ _ _ _ _ _ _ _ _ _ Htr
              first_row k prev r eq_refl Hprev Hr) as [-> Hlast].
  replace (1 + Z.of_nat k)%Z with (Z.of_nat (S k)) in * by lia.
  remember (Z.of_nat (S k)) as y eqn:Hy.
  unfold period_row.
  destruct (clamp y (End_Capital prev)) eqn:E; simpl.
  - destruct (Hlast eq_refl) as (-> & _ & Hlen). split.
    + apply Qlt_bool_true in E.
      assert (Hg : gross y * (1 - dividend_tax) == target y).
      { unfold gross_of. field. intro Hz. rewrite Hz in Hd.
        exact (Qlt_irrefl 0 Hd). }
      assert (0 <= (- projected y (End_Capital prev)) * (1 - dividend_tax))
        by (apply Qmult_le_0_compat; lra).
      lra.
    + intros [Hdep|Hlt]; [discriminate | simpl in Hlt; lia].
  - split; [apply Qle_refl | reflexivity].
Qed.

End TableFacts.

(** * What the page shows *)

Lemma fold_left_Qplus_shift (l : list Q) (a : Q) :
  fold_left Qplus l a == a + fold_left Qplus l 0.
Proof.
  revert a. induction l as [|x l IH]; intro a; simpl.
  - ring.
  - rewrite (IH (a + x)), (IH (0 + x)). ring.
Qed.

Lemma column_sum_cons (column : YearRecord -> Q) r (df : list YearRecord) :
  column_sum column (r :: df) == column r + column_sum column df.
Proof.
  unfold column_sum. simpl. rewrite fold_left_Qplus_shift. ring.
Qed.

Lemma column_sum_split (f g h : YearRecord -> Q) (df : list YearRecord) :
  Forall (fun r => f r == g r + h r) df ->
  column_sum f df == column_sum g df + column_sum h df.
Proof.
  induction 1 as [|r df Hr _ IH].
  - reflexivity.
  - rewrite !column_sum_cons, IH, Hr. ring.
Qed.

Lemma list_eq_dec_nil {A : Type} (l : list A) : {l = []} + {l <> []}.
Proof.
  destruct l; [now left | now right].
Qed.

Section PageFacts.

Variable current_year : Z.
Variables start_capital annual_return inflation net_withdrawal : Q.
Variables tax_threshold1 tax_rate1 tax_rate2 dividend_tax : Q.

Local Abbreviation row :=
  (period_row current_year annual_return inflation net_withdrawal
     tax_threshold1 tax_rate1 tax_rate2 dividend_tax).
Local Abbreviation projected :=
  (projected_of annual_return inflation net_withdrawal
     tax_threshold1 tax_rate1 tax_rate2 dividend_tax).
Local Abbreviation run :=
  (trace current_year annual_return inflation net_withdrawal
     tax_threshold1 tax_rate1 tax_rate2 dividend_tax).
Local Abbreviation first_row := (year0 current_year start_capital).

(** Over the rows a loop appends, the capital moves by the sum of the
    profits less the sums of the profit taxes and gross withdrawals. *)
Lemma trace_totals (year : Z) (c : Q) rows c' b :
  run year c rows c' b ->
  c' == c + column_sum Profit rows - column_sum Profit_Tax rows
        - column_sum Gross_Withdrawal rows.
Proof.
  induction 1 as [year c | year c Hc | year c rows c' b Hc Htr IH].
  - unfold column_sum. simpl. ring.
  - pose proof (row_conservation current_year annual_return inflation
                  net_withdrawal tax_threshold1 tax_rate1 tax_rate2
                  dividend_tax year c) as Hrow.
    rewrite row_end_capital, Hc in Hrow.
    rewrite !column_sum_cons. unfold column_sum. simpl. lra.
  - pose proof (row_conservation current_year annual_return inflation
                  net_withdrawal tax_threshold1 tax_rate1 tax_rate2
                  dividend_tax year c) as Hrow.
    rewrite row_end_capital, Hc in Hrow.
    rewrite !column_sum_cons. lra.
Qed.

(** X6.  The capital returned is the start capital plus the total of the
    Profit column, less the two totals of the metrics row (profit tax and
    dividend tax) and the total of the Net Withdrawal column. *)
Theorem totals_account_for_capital (years : Z) dat dep fin :
  simulate_withdrawal current_year start_capital annual_return inflation
    net_withdrawal tax_threshold1 tax_rate1 tax_rate2 dividend_tax years
    = Ok (dat, dep, fin) ->
  fin == start_capital + column_sum Profit dat - total_profit_tax dat
         - total_dividend_tax dat - column_sum Net_Withdrawal dat.
Proof.
  intro H.
  destruct (simulate_returns_trace _ _ _ _ _ _ _ _ _ _ _ _ _ H)
    as (rows & -> & Htr & _ & Hd).
  pose proof (trace_totals _ _ _ _ _ Htr) as Htot.
  assert (Hsplit : column_sum Gross_Withdrawal rows
                   == column_sum Net_Withdrawal rows
                      + column_sum Dividend_Tax rows).
  { destruct (list_eq_dec_nil rows) as [->|Hne]; [reflexivity|].
    apply column_sum_split.
    eapply Forall_impl; [|exact (trace_rows _ _ _ _ _ _ _ _ _ _ _ _ _ Htr)].
    intros r (y & c0 & ->). symmetry.
    exact (proj2 (row_withdrawal_split _ _ _ _ _ _ _ _ y c0 (Hd Hne))). }
  unfold total_profit_tax, total_dividend_tax.
  rewrite !column_sum_cons. simpl. lra.
Qed.

(** X7.  When the flag is set, the year named in the warning is the year
    of the last row: [current_year] plus the number of periods simulated,
    which is at least 1 and at most [years]. *)
Theorem depletion_year_in_horizon (years : Z) dat dep fin :
  simulate_withdrawal current_year start_capital annual_return inflation
    net_withdrawal tax_threshold1 tax_rate1 tax_rate2 dividend_tax years
    = Ok (dat, dep, fin) ->
  dep = true ->
  exists y,
    depletion_year dat = Some y /\
    y = (current_year + Z.of_nat (length dat) - 1)%Z /\
    (current_year + 1 <= y <= current_year + years)%Z.
Proof.
  intros H Hdep.
  destruct (simulate_returns_trace _ _ _ _ _ _ _ _ _ _ _ _ _ H)
    as (rows & -> & Htr & Hlen & _).
  destruct (trace_flag _ _ _ _ _ _ _ _ _ _ _ _ _ Htr Hdep) as [_ Hne].
  destruct (trace_last _ _ _ _ _ _ _ _ _ _ _ _ _ Htr first_row eq_refl)
    as (r & Hr & _).
  unfold depletion_year. simpl length. simpl Nat.pred. rewrite Hr. simpl.
  destruct rows as [|r1 rows]; [congruence|].
  simpl in Hr.
  rewrite (trace_years _ _ _ _ _ _ _ _ _ _ _ _ _ Htr _ _ Hr).
  eexists. split; [reflexivity|]. simpl length in *. lia.
Qed.

(** X8.  For a start capital that is not negative, no cell of the End
    Capital column is styled red. *)
Theorem end_capital_never_red (years : Z) dat dep fin :
  0 <= start_capital ->
  simulate_withdrawal current_year start_capital annual_return inflation
    net_withdrawal tax_threshold1 tax_rate1 tax_rate2 dividend_tax years
    = Ok (dat, dep, fin) ->
  Forall (fun r => highlight_negative (End_Capital r) = "color: "%string)
    dat.
Proof.
  intros H0 H.
  assert (Hstyle : forall v, 0 <= v ->
                   highlight_negative v = "color: "%string).
  { intros v Hv. unfold highlight_negative.
    apply Qlt_bool_false in Hv. now rewrite Hv. }
  destruct (simulate_returns_trace _ _ _ _ _ _ _ _ _ _ _ _ _ H)
    as (rows & -> & Htr & _).
  constructor; [now apply Hstyle|].
  eapply Forall_impl; [|exact (trace_rows _ _ _ _ _ _ _ _ _ _ _ _ _ Htr)].
  intros r (y & c0 & ->). apply Hstyle. apply row_nonneg.
Qed.

End PageFacts.

(** * The table under sensible parameters *)

Section Regime.

Variable current_year : Z.
Variables start_capital annual_return inflation net_withdrawal : Q.
Variables tax_threshold1 tax_rate1 tax_rate2 dividend_tax : Q.

Hypothesis capital_not_negative : 0 <= start_capital.
Hypothesis threshold_not_negative : 0 <= tax_threshold1.
Hypothesis tax_rate1_range : 0 <= tax_rate1 /\ tax_rate1 <= 1.
Hypothesis tax_rate2_range : 0 <= tax_rate2 /\ tax_rate2 <= 1.

Local Abbreviation tax := (profit_tax_of tax_threshold1 tax_rate1 tax_rate2).
Local Abbreviation row :=
  (period_row current_year annual_return inflation net_withdrawal
     tax_threshold1 tax_rate1 tax_rate2 dividend_tax).
Local Abbreviation projected :=
  (projected_of annual_return inflation net_withdrawal
     tax_threshold1 tax_rate1 tax_rate2 dividend_tax).
Local Abbreviation clamp :=
  (clamped annual_return inflation net_withdrawal
     tax_threshold1 tax_rate1 tax_rate2 dividend_tax).
Local Abbreviation gross := (gross_of inflation net_withdrawal dividend_tax).
Local Abbreviation target := (adjusted_net_of inflation net_withdrawal).
Local Abbreviation run :=
  (trace current_year annual_return inflation net_withdrawal
     tax_threshold1 tax_rate1 tax_rate2 dividend_tax).
Local Abbreviation first_row := (year0 current_year start_capital).

(** A profit of zero pays no tax. *)
Lemma profit_tax_at_zero (p : Q) : p == 0 -> tax p == 0.
Proof.
  intro Hp. unfold profit_tax_of.
  assert (H : Qle_bool p tax_threshold1 = true)
    by (apply Qle_bool_iff; lra).
  rewrite H, Hp. ring.
Qed.

(** What a capital that is not negative grows or shrinks to before the
    withdrawal is not negative, for a return of at least -100%. *)
Lemma growth_not_negative (c : Q) :
  0 <= 1 + annual_return -> 0 <= c ->
  0 <= c + c * annual_return - tax (c * annual_return).
Proof.
  intros Hr Hc.
  pose proof (growth_monotone annual_return tax_threshold1 tax_rate1
                tax_rate2 tax_rate1_range tax_rate2_range Hr c 0 Hc) as H.
  assert (H0 : tax (0 * annual_return) == 0)
    by (apply profit_tax_at_zero; ring).
  lra.
Qed.

(** Every row before which capital is counted starts from a capital that
    is not negative. *)
Lemma previous_capital_not_negative rows c' b (k : nat) prev :
  run 1%Z start_capital rows c' b ->
  nth_error (first_row :: rows) k = Some prev ->
  0 <= End_Capital prev.
Proof.
  intros Htr Hprev. destruct k as [|k]; simpl in Hprev.
  - injection Hprev as <-. exact capital_not_negative.
  - pose proof (trace_rows _ _ _ _ _ _ _ _ _ _ _ _ _ Htr) as Hall.
    rewrite Forall_forall in Hall.
    destruct (Hall prev (nth_error_In _ _ Hprev)) as (y & c0 & ->).
    apply row_nonneg.
Qed.

(** X9.  With rates between 0 and 1 and a threshold that is not negative,
    the profit tax never falls when the profit rises, and neither does
    the profit left after tax: the second bracket has no cliff. *)
Theorem profit_tax_has_no_cliff (p q : Q) :
  p <= q ->
  profit_tax_of tax_threshold1 tax_rate1 tax_rate2 p
    <= profit_tax_of tax_threshold1 tax_rate1 tax_rate2 q /\
  p - profit_tax_of tax_threshold1 tax_rate1 tax_rate2 p
    <= q - profit_tax_of tax_threshold1 tax_rate1 tax_rate2 q /\
  (0 <= p -> 0 <= profit_tax_of tax_threshold1 tax_rate1 tax_rate2 p /\
             profit_tax_of tax_threshold1 tax_rate1 tax_rate2 p <= p).
Proof.
  intro Hpq.
  destruct (after_tax_slope tax_threshold1 tax_rate1 tax_rate2
              tax_rate1_range tax_rate2_range p q Hpq) as [Hnet Hslope].
  split; [lra|]. split; [exact Hnet|].
  intro Hp.
  destruct (after_tax_slope tax_threshold1 tax_rate1 tax_rate2
              tax_rate1_range tax_rate2_range 0 p Hp) as [Hnet0 Hslope0].
  assert (H0 : tax 0 == 0) by (apply profit_tax_at_zero; reflexivity).
  split; lra.
Qed.


(** X11.  With a base withdrawal that is not negative, a dividend tax
    rate in [0, 1), an inflation rate and a return rate of at least
    -100%, no row has a negative gross withdrawal, net withdrawal or
    dividend tax, the clamped one included. *)
Theorem withdrawals_not_negative (years : Z) dat dep fin (k : nat) prev r :
  0 <= 1 + annual_return ->
  0 <= 1 + inflation ->
  0 <= dividend_tax -> 0 < 1 - dividend_tax ->
  0 <= net_withdrawal ->
  simulate_withdrawal current_year start_capital annual_return inflation
    net_withdrawal tax_threshold1 tax_rate1 tax_rate2 dividend_tax years
    = Ok (dat, dep, fin) ->
  nth_error dat k = Some prev ->
  nth_error dat (S k) = Some r ->
  0 <= Gross_Withdrawal r /\ 0 <= Net_Withdrawal r /\ 0 <= Dividend_Tax r.
Proof.
  intros Hr Hi Hd0 Hd1 Hw H Hprev Hrow.
  destruct (simulate_returns_trace _ _ _ _ _ _ _ _ _ _ _ _ _ H)
    as (rows & -> & Htr & _).
  simpl in Hrow.
  pose proof (previous_capital_not_negative _ _ _ _ _ Htr Hprev) as Hc.
  destruct (trace_nth _ _ _ _ _ _ _ _ _ _ _ _ _ Htr
              first_row k prev r eq_refl Hprev Hrow) as [-> _].
  remember (1 + Z.of_nat k)%Z as y eqn:Hy.
  assert (Htarget : 0 <= target y).
  { unfold adjusted_net_of. apply Qmult_le_0_compat; [exact Hw|].
    apply Qpower_0_le. exact Hi. }
  assert (Hgross : 0 <= gross y).
  { unfold gross_of, Qdiv. apply Qmult_le_0_compat; [exact Htarget|].
    apply Qlt_le_weak, Qinv_lt_0_compat. exact Hd1. }
  unfold period_row. destruct (clamp y (End_Capital prev)); simpl.
  - assert (Hleft : 0 <= gross y + projected y (End_Capital prev)).
    { unfold projected_of.
      pose proof (growth_not_negative _ Hr Hc). lra. }
    split; [exact Hleft|].
    split; apply Qmult_le_0_compat; lra.
  - split; [exact Hgross|]. split; [exact Htarget|].
    apply Qmult_le_0_compat; lra.
Qed.

End Regime.

(** * More about the bisection loop *)

Section SolverEdges.

Variable current_year : Z.
Variables start_capital annual_return inflation : Q.
Variables tax_threshold1 tax_rate1 tax_rate2 dividend_tax : Q.
Variable years : Z.

Local Abbreviation simulate_with w :=
  (simulate_withdrawal current_year start_capital annual_return inflation w
     tax_threshold1 tax_rate1 tax_rate2 dividend_tax years).
Local Abbreviation final :=
  (end_capital_of current_year start_capital annual_return inflation
     tax_threshold1 tax_rate1 tax_rate2 dividend_tax years).
Local Abbreviation search :=
  (bisect current_year start_capital annual_return inflation
     tax_threshold1 tax_rate1 tax_rate2 dividend_tax years).
Local Abbreviation solve :=
  (solve_withdrawal current_year start_capital annual_return inflation
     tax_threshold1 tax_rate1 tax_rate2 dividend_tax years).

(** The interval the loop stops on, read from the value computed after
    it. *)
Lemma solve_withdrawal_interval (fuel : nat) (w : Q) :
  solve fuel = Some (Ok w) ->
  exists l h,
    search fuel 0 (start_capital * 2) = Some (Ok (l, h)) /\
    w = (l + h) / 2.
Proof.
  unfold solve_withdrawal. intro H.
  destruct (search fuel 0 (start_capital * 2)) as [[[l h]|e]|];
    try discriminate.
  injection H as <-. now exists l, h.
Qed.

(** X12.  With a dividend tax rate of 1, a horizon of at least one year
    and a start capital above half the tolerance, the first simulation of
    the loop raises [ZeroDivisionError] and no withdrawal is computed. *)
Theorem solver_raises_on_full_dividend_tax (fuel : nat) :
  1 - dividend_tax == 0 ->
  (1 <= years)%Z ->
  tol < start_capital * 2 ->
  solve_withdrawal current_year start_capital annual_return inflation
    tax_threshold1 tax_rate1 tax_rate2 dividend_tax years (S fuel)
    = Some (Raise ZeroDivisionError).
Proof.
  intros Hz Hy Hsc. unfold solve_withdrawal.
  rewrite bisect_unfold.
  assert (E : Qlt_bool tol (start_capital * 2 - 0) = true)
    by (apply Qlt_bool_true; lra).
  rewrite E. unfold simulate_withdrawal.
  destruct (Z.to_nat years) as [|n] eqn:En; [lia|].
  now rewrite (for_years_raises _ _ _ _ _ _ _ _ _ _ _ Hz).
Qed.

(** X13.  With a start capital of at most half the tolerance, negative
    ones included, the loop body is never entered and the value computed
    is the start capital itself. *)
Theorem solver_skips_small_capital (fuel : nat) :
  start_capital * 2 <= tol ->
  solve_withdrawal current_year start_capital annual_return inflation
    tax_threshold1 tax_rate1 tax_rate2 dividend_tax years fuel
    = Some (Ok ((0 + start_capital * 2) / 2)) /\
  (0 + start_capital * 2) / 2 == start_capital.
Proof.
  intro Hsc. unfold solve_withdrawal.
  rewrite bisect_narrow_enough by lra.
  split; [reflexivity|].
  pose proof (midpoint_eq 0 (start_capital * 2)). lra.
Qed.

End SolverEdges.

Section SolverThreshold.

Variable current_year : Z.
Variables start_capital annual_return inflation : Q.
Variables tax_threshold1 tax_rate1 tax_rate2 dividend_tax : Q.
Variable years : Z.

Hypothesis capital_not_negative : 0 <= start_capital.
Hypothesis dividend_tax_below_1 : 0 < 1 - dividend_tax.
Hypothesis tax_rate1_range : 0 <= tax_rate1 /\ tax_rate1 <= 1.
Hypothesis tax_rate2_range : 0 <= tax_rate2 /\ tax_rate2 <= 1.
Hypothesis return_above_total_loss : 0 <= 1 + annual_return.
Hypothesis inflation_above_total_loss : 0 <= 1 + inflation.

Local Abbreviation final :=
  (end_capital_of current_year start_capital annual_return inflation
     tax_threshold1 tax_rate1 tax_rate2 dividend_tax years).

(** Under these parameters a larger base withdrawal never leaves a larger
    final capital. *)
Lemma end_capital_of_monotone (w1 w2 c1 c2 : Q) :
  w1 <= w2 -> final w1 = Some c1 -> final w2 = Some c2 -> c2 <= c1.
Proof.
  unfold end_capital_of, simulate_withdrawal. intros Hw H1 H2.
  destruct (for_years _ _ _ w1 _ _ _ _ _ _ _) as [r1|e1] eqn:L1;
    [|discriminate].
  destruct (for_years _ _ _ w2 _ _ _ _ _ _ _) as [r2|e2] eqn:L2;
    [|discriminate].
  simpl in H1, H2. injection H1 as <-. injection H2 as <-.
  apply (for_years_monotone current_year annual_return inflation
           tax_threshold1 tax_rate1 tax_rate2 dividend_tax w1 w2
           dividend_tax_below_1 tax_rate1_range tax_rate2_range
           return_above_total_loss inflation_above_total_loss Hw
           _ _ _ _ _ _ L1 L2); simpl; auto.
  apply Qle_refl.
Qed.

(** X15.  Under these parameters the value the solver returns locates the
    withdrawal at which the capital starts to be depleted to within half
    the tolerance: every smaller withdrawal further than that below it
    leaves capital at the end, and every withdrawal up to twice the start
    capital further than that above it leaves none. *)
Theorem solver_locates_threshold (fuel : nat) (w w' c' : Q) :
  solve_withdrawal current_year start_capital annual_return inflation
    tax_threshold1 tax_rate1 tax_rate2 dividend_tax years fuel
    = Some (Ok w) ->
  end_capital_of current_year start_capital annual_return inflation
    tax_threshold1 tax_rate1 tax_rate2 dividend_tax years w' = Some c' ->
  (0 <= w' -> w' < w - (1 # 2) -> 0 < c') /\
  (w + (1 # 2) < w' -> w' <= start_capital * 2 -> c' == 0).
Proof.
  intros H Hc'.
  destruct (solve_withdrawal_interval _ _ _ _ _ _ _ _ _ _ _ H)
    as (l & h & Hrun & ->).
  destruct (bisect_bracket _ _ _ _ _ _ _ _ _ _ _ _ _ _ Hrun)
    as (H1 & H2 & H3 & H4 & H5 & H6); [lra | now left | now left |].
  pose proof (midpoint_eq l h) as Hmid. unfold tol in H4.
  split.
  - intros Hpos Hbelow.
    destruct H5 as [->|(c & Hc & Hlt)]; [lra|].
    assert (c <= c') by (apply (end_capital_of_monotone w' l); [lra|auto..]).
    lra.
  - intros Habove Hmax.
    destruct H6 as [->|(c & Hc & Hle)]; [lra|].
    assert (c' <= c) by (apply (end_capital_of_monotone h w'); [lra|auto..]).
    pose proof (end_capital_of_nonneg _ _ _ _ _ _ _ _ _ _ _
                  capital_not_negative Hc').
    lra.
Qed.

End SolverThreshold.

(** * Worked inputs for the further properties *)

(** X1 at the defaults, two periods: three rows. *)
Lemma table_shape_witness :
  exists dat dep fin,
    simulate_withdrawal 2024 3000000 (4 # 100) (2 # 100) 30000
      200000 (19 # 100) (258 # 1000) (25 # 100) 2 = Ok (dat, dep, fin) /\
    nth_error dat 0 = Some (year0 2024 3000000) /\
    dep = false /\ length dat = 3%nat.
Proof.
  eexists _, _, _.
  split; [vm_compute; reflexivity|].
  destruct (table_shape 2024 3000000 (4 # 100) (2 # 100) 30000
              200000 (19 # 100) (258 # 1000) (25 # 100) 2 _ false _
              ltac:(vm_compute; reflexivity))
    as (Hfirst & _ & Hfull & _).
  split; [exact Hfirst|]. split; [reflexivity|]. exact (Hfull eq_refl).
Defined.

(** X2 on the depletion scenario. *)
Lemma final_capital_is_last_row_witness :
  exists dat dep fin r,
    simulate_withdrawal 2024 50000 (4 # 100) (2 # 100) 400000
      200000 (19 # 100) (258 # 1000) (25 # 100) 35 = Ok (dat, dep, fin) /\
    nth_error dat (Nat.pred (length dat)) = Some r /\
    End_Capital r = fin /\ dep = true /\ fin = 0.
Proof.
  eexists _, _, _, _.
  split; [vm_compute; reflexivity|].
  destruct (final_capital_is_last_row 2024 50000 (4 # 100) (2 # 100) 400000
              200000 (19 # 100) (258 # 1000) (25 # 100) 35 _ true _
              ltac:(vm_compute; reflexivity))
    as ((r & Hr & Hend) & Hzero).
  split; [reflexivity|]. split; [reflexivity|]. split; [reflexivity|].
  exact (Hzero eq_refl).
Defined.

(** X3 at the defaults: the third row is the year 2026. *)
Lemma rows_are_consecutive_years_witness :
  exists dat dep fin r,
    simulate_withdrawal 2024 3000000 (4 # 100) (2 # 100) 30000
      200000 (19 # 100) (258 # 1000) (25 # 100) 2 = Ok (dat, dep, fin) /\
    nth_error dat 2 = Some r /\ Year r = (2024 + Z.of_nat 2)%Z.
Proof.
  eexists _, _, _, _.
  split; [vm_compute; reflexivity|]. split; [reflexivity|].
  eapply (rows_are_consecutive_years 2024 3000000 (4 # 100) (2 # 100) 30000
            200000 (19 # 100) (258 # 1000) (25 # 100) 2 _ _ _ 2%nat).
  - vm_compute. reflexivity.
  - reflexivity.
Defined.

(** X4 on the depletion scenario: the clamped row. *)
Lemma capital_is_conserved_witness :
  exists dat dep fin r,
    simulate_withdrawal 2024 50000 (4 # 100) (2 # 100) 400000
      200000 (19 # 100) (258 # 1000) (25 # 100) 35 = Ok (dat, dep, fin) /\
    nth_error dat 0 = Some (year0 2024 50000) /\
    nth_error dat 1 = Some r /\
    End_Capital r
      == End_Capital (year0 2024 50000) + Profit r - Profit_Tax r
         - Gross_Withdrawal r.
Proof.
  eexists _, _, _, _.
  split; [vm_compute; reflexivity|].
  split; [reflexivity|]. split; [reflexivity|].
  eapply (capital_is_conserved 2024 50000 (4 # 100) (2 # 100) 400000
            200000 (19 # 100) (258 # 1000) (25 # 100) 35 _ _ _ 0%nat).
  - vm_compute. reflexivity.
  - reflexivity.
  - reflexivity.
Defined.

(** X5 at the defaults: the second period pays 30000 indexed once. *)
Lemma net_withdrawal_at_most_target_witness :
  exists dat dep fin prev r,
    0 < 1 - (25 # 100) /\
    simulate_withdrawal 2024 3000000 (4 # 100) (2 # 100) 30000
      200000 (19 # 100) (258 # 1000) (25 # 100) 2 = Ok (dat, dep, fin) /\
    nth_error dat 1 = Some prev /\
    nth_error dat 2 = Some r /\
    Net_Withdrawal r
      = adjusted_net_of (2 # 100) 30000 (Z.of_nat 2).
Proof.
  eexists _, false, _, _, _.
  assert (Hd : 0 < 1 - (25 # 100)) by lra.
  split; [exact Hd|].
  match goal with
  | |- ?A /\ ?B /\ ?C /\ _ =>
      assert (Hs : A) by (vm_compute; reflexivity);
      assert (H1 : B) by reflexivity;
      assert (H2 : C) by reflexivity
  end.
  split; [exact Hs|]. split; [exact H1|]. split; [exact H2|].
  exact (proj2 (net_withdrawal_at_most_target 2024 3000000 (4 # 100)
                  (2 # 100) 30000 200000 (19 # 100) (258 # 1000)
                  (25 # 100) 2 _ false _ 1%nat _ _ Hd Hs H1 H2)
           (or_introl eq_refl)).
Defined.

(** X6 at the defaults, two periods. *)
Lemma totals_account_for_capital_witness :
  exists dat dep fin,
    simulate_withdrawal 2024 3000000 (4 # 100) (2 # 100) 30000
      200000 (19 # 100) (258 # 1000) (25 # 100) 2 = Ok (dat, dep, fin) /\
    fin == 3000000 + column_sum Profit dat - total_profit_tax dat
           - total_dividend_tax dat - column_sum Net_Withdrawal dat.
Proof.
  eexists _, _, _.
  split; [vm_compute; reflexivity|].
  eapply (totals_account_for_capital 2024 3000000 (4 # 100) (2 # 100) 30000
            200000 (19 # 100) (258 # 1000) (25 # 100) 2).
  vm_compute. reflexivity.
Defined.

(** X7 on the depletion scenario: the warning names 2025. *)
Lemma depletion_year_in_horizon_witness :
  exists dat fin,
    simulate_withdrawal 2024 50000 (4 # 100) (2 # 100) 400000
      200000 (19 # 100) (258 # 1000) (25 # 100) 35 = Ok (dat, true, fin) /\
    exists y,
      depletion_year dat = Some y /\
      y = (2024 + Z.of_nat (length dat) - 1)%Z /\
      (2024 + 1 <= y <= 2024 + 35)%Z.
Proof.
  eexists _, _.
  split; [vm_compute; reflexivity|].
  eapply (depletion_year_in_horizon 2024 50000 (4 # 100) (2 # 100) 400000
            200000 (19 # 100) (258 # 1000) (25 # 100) 35 _ true).
  - vm_compute. reflexivity.
  - reflexivity.
Defined.

(** X8 at the defaults. *)
Lemma end_capital_never_red_witness :
  exists dat dep fin,
    0 <= 3000000 /\
    simulate_withdrawal 2024 3000000 (4 # 100) (2 # 100) 30000
      200000 (19 # 100) (258 # 1000) (25 # 100) 2 = Ok (dat, dep, fin) /\
    Forall (fun r => highlight_negative (End_Capital r) = "color: "%string)
      dat.
Proof.
  eexists _, _, _.
  assert (H0 : 0 <= 3000000) by lra.
  split; [exact H0|].
  split; [vm_compute; reflexivity|].
  eapply (end_capital_never_red 2024 3000000 (4 # 100) (2 # 100) 30000
            200000 (19 # 100) (258 # 1000) (25 # 100) 2 _ _ _ H0).
  vm_compute. reflexivity.
Defined.

(** X9 across the default threshold: profits of 100000 and 300000. *)
Lemma profit_tax_has_no_cliff_witness :
  profit_tax_of 200000 (19 # 100) (258 # 1000) 100000
    <= profit_tax_of 200000 (19 # 100) (258 # 1000) 300000 /\
  100000 - profit_tax_of 200000 (19 # 100) (258 # 1000) 100000
    <= 300000 - profit_tax_of 200000 (19 # 100) (258 # 1000) 300000.
Proof.
  assert (Hthr : 0 <= 200000) by lra.
  assert (Ht1 : 0 <= 19 # 100 /\ 19 # 100 <= 1) by (split; lra).
  assert (Ht2 : 0 <= 258 # 1000 /\ 258 # 1000 <= 1) by (split; lra).
  assert (Hpq : 100000 <= 300000) by lra.
  destruct (profit_tax_has_no_cliff 200000 (19 # 100) (258 # 1000)
              Hthr Ht1 Ht2 100000 300000 Hpq) as (Htax & Hnet & _).
  split; assumption.
Defined.


(** X11 on the depletion scenario: the clamped row pays out what is
    left. *)
Lemma withdrawals_not_negative_witness :
  exists dat dep fin r,
    simulate_withdrawal 2024 50000 (4 # 100) (2 # 100) 400000
      200000 (19 # 100) (258 # 1000) (25 # 100) 35 = Ok (dat, dep, fin) /\
    nth_error dat 1 = Some r /\
    0 <= Gross_Withdrawal r /\ 0 <= Net_Withdrawal r /\
    0 <= Dividend_Tax r.
Proof.
  eexists _, _, _, _.
  split; [vm_compute; reflexivity|]. split; [reflexivity|].
  assert (H0 : 0 <= 50000) by lra.
  assert (Hthr : 0 <= 200000) by lra.
  assert (Ht1 : 0 <= 19 # 100 /\ 19 # 100 <= 1) by (split; lra).
  assert (Ht2 : 0 <= 258 # 1000 /\ 258 # 1000 <= 1) by (split; lra).
  assert (Hr : 0 <= 1 + (4 # 100)) by lra.
  assert (Hi : 0 <= 1 + (2 # 100)) by lra.
  assert (Hd0 : 0 <= 25 # 100) by lra.
  assert (Hd1 : 0 < 1 - (25 # 100)) by lra.
  assert (Hw : 0 <= 400000) by lra.
  eapply (withdrawals_not_negative 2024 50000 (4 # 100) (2 # 100) 400000
            200000 (19 # 100) (258 # 1000) (25 # 100) H0 Hthr Ht1 Ht2
            35 _ _ _ 0%nat _ _ Hr Hi Hd0 Hd1 Hw).
  - vm_compute. reflexivity.
  - reflexivity.
  - reflexivity.
Defined.

(** X12 at a dividend tax rate of 100%. *)
Lemma solver_raises_on_full_dividend_tax_witness :
  1 - 1 == 0 /\ (1 <= 35)%Z /\ tol < 3000000 * 2 /\
  solve_withdrawal 2024 3000000 (4 # 100) (2 # 100)
    200000 (19 # 100) (258 # 1000) 1 35 1 = Some (Raise ZeroDivisionError).
Proof.
  assert (Hz : 1 - 1 == 0) by reflexivity.
  assert (Hy : (1 <= 35)%Z) by lia.
  assert (Hsc : tol < 3000000 * 2) by (vm_compute; reflexivity).
  repeat (split; [assumption|]).
  exact (solver_raises_on_full_dividend_tax 2024 3000000 (4 # 100) (2 # 100)
           200000 (19 # 100) (258 # 1000) 1 35 0 Hz Hy Hsc).
Defined.

(** X13 at a start capital of -100: the value computed is -100. *)
Lemma solver_skips_small_capital_witness :
  - 100 * 2 <= tol /\
  solve_withdrawal 2024 (- 100) (4 # 100) (2 # 100)
    200000 (19 # 100) (258 # 1000) (25 # 100) 35 0
    = Some (Ok ((0 + - 100 * 2) / 2)) /\
  (0 + - 100 * 2) / 2 == - 100.
Proof.
  assert (Hsc : - 100 * 2 <= tol) by (vm_compute; discriminate).
  split; [exact Hsc|].
  exact (solver_skips_small_capital 2024 (- 100) (4 # 100) (2 # 100)
           200000 (19 # 100) (258 # 1000) (25 # 100) 35 0 Hsc).
Defined.

(** X15 on a capital of 100 over one year at the defaults: the value
    computed is about 77.7; a withdrawal of 50 leaves capital and one of
    100 leaves none. *)
Lemma solver_locates_threshold_witness :
  exists w c1 c2,
    solve_withdrawal 2024 100 (4 # 100) (2 # 100)
      200000 (19 # 100) (258 # 1000) (25 # 100) 1 8 = Some (Ok w) /\
    end_capital_of 2024 100 (4 # 100) (2 # 100)
      200000 (19 # 100) (258 # 1000) (25 # 100) 1 50 = Some c1 /\
    end_capital_of 2024 100 (4 # 100) (2 # 100)
      200000 (19 # 100) (258 # 1000) (25 # 100) 1 100 = Some c2 /\
    0 < c1 /\ c2 == 0.
Proof.
  exists (2800676018271027200 # 36028797018963968),
    (2743000000 # 75000000), 0.
  assert (Hs : solve_withdrawal 2024 100 (4 # 100) (2 # 100)
                 200000 (19 # 100) (258 # 1000) (25 # 100) 1 8
               = Some (Ok (2800676018271027200 # 36028797018963968)))
    by (vm_compute; reflexivity).
  assert (H1 : end_capital_of 2024 100 (4 # 100) (2 # 100)
                 200000 (19 # 100) (258 # 1000) (25 # 100) 1 50
               = Some (2743000000 # 75000000))
    by (vm_compute; reflexivity).
  assert (H2 : end_capital_of 2024 100 (4 # 100) (2 # 100)
                 200000 (19 # 100) (258 # 1000) (25 # 100) 1 100 = Some 0)
    by (vm_compute; reflexivity).
  assert (H0 : 0 <= 100) by lra.
  assert (Hd : 0 < 1 - (25 # 100)) by lra.
  assert (Ht1 : 0 <= 19 # 100 /\ 19 # 100 <= 1) by (split; lra).
  assert (Ht2 : 0 <= 258 # 1000 /\ 258 # 1000 <= 1) by (split; lra).
  assert (Hr : 0 <= 1 + (4 # 100)) by lra.
  assert (Hi : 0 <= 1 + (2 # 100)) by lra.
  split; [exact Hs|]. split; [exact H1|]. split; [exact H2|].
  split.
  - apply (proj1 (solver_locates_threshold 2024 100 (4 # 100) (2 # 100)
                    200000 (19 # 100) (258 # 1000) (25 # 100) 1
                    H0 Hd Ht1 Ht2 Hr Hi 8 _ 50 _ Hs H1)).
    + lra.
    + vm_compute. reflexivity.
  - apply (proj2 (solver_locates_threshold 2024 100 (4 # 100) (2 # 100)
                    200000 (19 # 100) (258 # 1000) (25 # 100) 1
                    H0 Hd Ht1 Ht2 Hr Hi 8 _ 100 _ Hs H2)).
    + vm_compute. reflexivity.
    + lra.
Defined.

(** * The bisection loop in binary64 *)

(** An integer rounds to itself. *)
Lemma half_even_Z (x : Q) (K : Z) : x == inject_Z K -> half_even x = K.
Proof.
  intro H. unfold half_even.
  assert (Hf : Qfloor x = K) by (rewrite H; apply Qfloor_Z).
  rewrite Hf.
  assert (Hr : Qlt_bool (x - inject_Z K) (1 # 2) = true)
    by (apply Qlt_bool_true; lra).
  now rewrite Hr.
Qed.

Lemma pow2_Q (p : Z) : (0 <= p)%Z -> 2 ^ p == inject_Z (2 ^ p).
Proof.
  intro Hp. symmetry. apply (Zpower_Qpower 2 p Hp).
Qed.

Lemma pow2_Q_pos (p : Z) : (0 <= p)%Z -> 0 < inject_Z (2 ^ p).
Proof.
  intro Hp. change 0 with (inject_Z 0). rewrite <- Zlt_Qlt.
  apply Z.pow_pos_nonneg; lia.
Qed.

Lemma scaled_numerator (k : Z) (j : nat) (q : Q) :
  q == inject_Z k / inject_Z (2 ^ Z.of_nat j) ->
  (Qnum q * 2 ^ Z.of_nat j = k * Zpos (Qden q))%Z.
Proof.
  intro H.
  assert (Hq : q * inject_Z (2 ^ Z.of_nat j) == inject_Z k).
  { rewrite H. field. intro Hz.
    pose proof (pow2_Q_pos (Z.of_nat j) ltac:(lia)). lra. }
  unfold Qeq in Hq. simpl in Hq. rewrite Pos.mul_1_r in Hq. lia.
Qed.

(** The last place of a number with a numerator of fewer than 54 bits is
    no coarser than its denominator. *)
Lemma binade_le (k : Z) (j : nat) (q : Q) :
  q == inject_Z k / inject_Z (2 ^ Z.of_nat j) ->
  ~ q == 0 ->
  (Z.abs k < 2 ^ 53)%Z ->
  (binade q <= - Z.of_nat j)%Z.
Proof.
  intros H Hnz Hk.
  pose proof (scaled_numerator k j q H) as Hn.
  assert (Hn0 : Qnum q <> 0%Z).
  { intro Hz. apply Hnz. unfold Qeq. simpl. rewrite Hz. reflexivity. }
  assert (Habs : (Z.abs (Qnum q) * 2 ^ Z.of_nat j
                  = Z.abs k * Zpos (Qden q))%Z).
  { rewrite <- (Z.abs_eq (2 ^ Z.of_nat j)) by (apply Z.pow_nonneg; lia).
    rewrite <- Z.abs_mul, Hn, Z.abs_mul. reflexivity. }
  set (L := Z.log2 (Z.abs (Qnum q))).
  set (M := Z.log2 (Zpos (Qden q))).
  assert (HL : (2 ^ L <= Z.abs (Qnum q))%Z)
    by (apply Z.log2_spec; lia).
  assert (HM : (Zpos (Qden q) < 2 ^ Z.succ M)%Z)
    by (apply Z.log2_spec; lia).
  assert (HL0 : (0 <= L)%Z) by apply Z.log2_nonneg.
  assert (HM0 : (0 <= M)%Z) by apply Z.log2_nonneg.
  assert (Hguess : (L - M - 53 <= - Z.of_nat j)%Z).
  { assert (Hlt : (2 ^ (L + Z.of_nat j) < 2 ^ (M + 54))%Z).
    { rewrite Z.pow_add_r by lia.
      replace (M + 54)%Z with (53 + Z.succ M)%Z by lia.
      rewrite (Z.pow_add_r 2 53) by lia.
      assert (0 < 2 ^ Z.of_nat j)%Z by (apply Z.pow_pos_nonneg; lia).
      assert (0 < 2 ^ Z.succ M)%Z by (apply Z.pow_pos_nonneg; lia).
      nia. }
    apply Z.pow_lt_mono_r_iff in Hlt; lia. }
  unfold binade. fold L M.
  destruct (Qle_bool (2 ^ 53) (Qabs q * 2 ^ (- (L - M - 53)))) eqn:E;
    [|exact Hguess].
  destruct (Z.eq_dec (L - M - 53) (- Z.of_nat j)) as [Heq|Hne]; [|lia].
  exfalso. apply Qle_bool_iff in E. rewrite Heq, Z.opp_involutive in E.
  rewrite (pow2_Q (Z.of_nat j)) in E by lia.
  assert (Hq : Qabs q * inject_Z (2 ^ Z.of_nat j) == inject_Z (Z.abs k)).
  { unfold Qeq, Qabs. destruct q as [qn qd]. simpl in *.
    rewrite Pos.mul_1_r. lia. }
  rewrite Hq in E.
  assert (H53 : (2 ^ 53 : Q) == inject_Z (2 ^ 53)) by reflexivity.
  rewrite H53, <- Zle_Qle in E. lia.
Qed.

(** Rounding leaves a binary64 number as it is. *)
Lemma rnd_exact (k : Z) (j : nat) (q : Q) :
  q == inject_Z k / inject_Z (2 ^ Z.of_nat j) ->
  (Z.abs k < 2 ^ 53)%Z ->
  rnd q == q.
Proof.
  intros H Hk. unfold rnd.
  destruct (Qeq_bool q 0) eqn:E0.
  - apply Qeq_bool_iff in E0. now rewrite E0.
  - assert (Hnz : ~ q == 0)
      by (intro Hz; apply Qeq_bool_iff in Hz; congruence).
    pose proof (binade_le k j q H Hnz Hk) as He.
    set (e := binade q) in *.
    set (p := (- Z.of_nat j - e)%Z).
    assert (Hp : (0 <= p)%Z) by (unfold p; lia).
    pose proof (pow2_Q_pos p Hp) as HA.
    pose proof (pow2_Q_pos (Z.of_nat j) ltac:(lia)) as HB.
    assert (Hneg : 2 ^ (- e) == inject_Z (2 ^ p) * inject_Z (2 ^ Z.of_nat j)).
    { replace (- e)%Z with (p + Z.of_nat j)%Z by (unfold p; lia).
      rewrite Qpower_plus by discriminate.
      rewrite (pow2_Q p Hp), (pow2_Q (Z.of_nat j)) by lia. reflexivity. }
    assert (Hpos : 2 ^ e == / (inject_Z (2 ^ p) * inject_Z (2 ^ Z.of_nat j))).
    { rewrite <- Hneg, Qpower_opp. symmetry. apply Qinv_involutive. }
    assert (HS : q * 2 ^ (- e) == inject_Z (k * 2 ^ p)).
    { rewrite Hneg, H, inject_Z_mult. field. lra. }
    rewrite (half_even_Z _ _ HS), Hpos, H, inject_Z_mult. field. lra.
Qed.

(** The scaled number has at least 53 bits before the point. *)
Lemma binade_lower (q : Q) :
  ~ q == 0 -> 2 ^ 52 <= Qabs q * 2 ^ (- binade q).
Proof.
  intro Hnz.
  assert (Hn0 : Qnum q <> 0%Z).
  { intro Hz. apply Hnz. unfold Qeq. simpl. rewrite Hz. reflexivity. }
  set (L := Z.log2 (Z.abs (Qnum q))).
  set (M := Z.log2 (Zpos (Qden q))).
  assert (HL : (2 ^ L <= Z.abs (Qnum q))%Z) by (apply Z.log2_spec; lia).
  assert (HM : (Zpos (Qden q) < 2 ^ Z.succ M)%Z)
    by (apply Z.log2_spec; lia).
  assert (HL0 : (0 <= L)%Z) by apply Z.log2_nonneg.
  assert (HM0 : (0 <= M)%Z) by apply Z.log2_nonneg.
  assert (Hguess : 2 ^ 52 <= Qabs q * 2 ^ (- (L - M - 53))).
  { replace (- (L - M - 53))%Z with ((M + 53) + - L)%Z by lia.
    rewrite Qpower_plus by discriminate.
    rewrite Qpower_opp, (pow2_Q (M + 53)), (pow2_Q L) by lia.
    pose proof (pow2_Q_pos L HL0) as HpL.
    assert (Hq : Qabs q
                 == inject_Z (Z.abs (Qnum q)) / inject_Z (Zpos (Qden q))).
    { destruct q as [qn qd]. unfold Qabs. simpl. rewrite Qmake_Qdiv.
      reflexivity. }
    rewrite Hq.
    assert (HD : 0 < inject_Z (Zpos (Qden q))) by reflexivity.
    assert (H52 : (2 ^ 52 : Q) == inject_Z (2 ^ 52)) by reflexivity.
    rewrite H52.
    setoid_replace (inject_Z (Z.abs (Qnum q)) / inject_Z (Z.pos (Qden q))
                    * (inject_Z (2 ^ (M + 53)) * / inject_Z (2 ^ L)))
      with (inject_Z (Z.abs (Qnum q) * 2 ^ (M + 53))
            / inject_Z (Z.pos (Qden q) * 2 ^ L))
      by (rewrite !inject_Z_mult; field; split; lra).
    apply Qle_shift_div_l.
    - rewrite inject_Z_mult.
      apply Qmult_lt_0_compat; assumption.
    - rewrite <- inject_Z_mult, <- Zle_Qle.
      replace (M + 53)%Z with (52 + Z.succ M)%Z by lia.
      rewrite (Z.pow_add_r 2 52) by lia.
      assert (0 < 2 ^ Z.succ M)%Z by (apply Z.pow_pos_nonneg; lia).
      assert (0 < 2 ^ L)%Z by (apply Z.pow_pos_nonneg; lia).
      assert (0 < 2 ^ 52)%Z by reflexivity.
      nia. }
  unfold binade. fold L M.
  destruct (Qle_bool (2 ^ 53) (Qabs q * 2 ^ (- (L - M - 53)))) eqn:E;
    [|exact Hguess].
  apply Qle_bool_iff in E.
  replace (- (L - M - 53 + 1))%Z with (- (L - M - 53) + - (1))%Z by lia.
  rewrite Qpower_plus by discriminate.
  change (2 ^ (- (1))) with (1 # 2).
  assert (H53 : (2 ^ 53 : Q) == 2 * 2 ^ 52) by reflexivity.
  rewrite H53 in E.
  set (x := Qabs q * 2 ^ (- (L - M - 53))) in *.
  setoid_replace (Qabs q * (2 ^ (- (L - M - 53)) * (1 # 2)))
    with (x * (1 # 2)) by (unfold x; ring).
  lra.
Qed.

(** Only numbers of size at most a half round to the integer 0. *)
Lemma half_even_zero (x : Q) : half_even x = 0%Z -> Qabs x <= 1 # 2.
Proof.
  unfold half_even. intro H.
  pose proof (Qfloor_le x) as Hlo. pose proof (Qlt_floor x) as Hhi.
  rewrite inject_Z_plus in Hhi. change (inject_Z 1) with 1 in Hhi.
  apply Qabs_Qle_condition.
  destruct (Qlt_bool (x - inject_Z (Qfloor x)) (1 # 2)) eqn:E1.
  - rewrite H in *. apply Qlt_bool_true in E1.
    change (inject_Z 0) with 0 in *. split; lra.
  - apply Qlt_bool_false in E1.
    destruct (Qlt_bool (1 # 2) (x - inject_Z (Qfloor x))) eqn:E2.
    + apply Qlt_bool_true in E2.
      assert (Hf : Qfloor x = (-1)%Z) by lia. rewrite Hf in *.
      change (inject_Z (-1)) with (-1) in *. split; lra.
    + apply Qlt_bool_false in E2.
      destruct (Z.even (Qfloor x)) eqn:E3.
      * rewrite H in *. change (inject_Z 0) with 0 in *. split; lra.
      * assert (Hf : Qfloor x = (-1)%Z) by lia. rewrite Hf in *.
        change (inject_Z (-1)) with (-1) in *. split; lra.
Qed.

(** Only zero rounds to zero. *)
Lemma rnd_zero (q : Q) : rnd q == 0 -> q == 0.
Proof.
  unfold rnd. destruct (Qeq_bool q 0) eqn:E0.
  - intros _. now apply Qeq_bool_iff.
  - intro H. exfalso.
    assert (Hnz : ~ q == 0)
      by (intro Hz; apply Qeq_bool_iff in Hz; congruence).
    pose proof (binade_lower q Hnz) as Hlow.
    set (e := binade q) in *.
    assert (Hpe : 0 < 2 ^ e) by (apply Qpower_0_lt; reflexivity).
    assert (Hpn : 0 < 2 ^ (- e)) by (apply Qpower_0_lt; reflexivity).
    assert (Hm : half_even (q * 2 ^ (- e)) = 0%Z).
    { apply Qmult_integral in H. destruct H as [H|H]; [|lra].
      unfold Qeq in H. simpl in H. lia. }
    pose proof (half_even_zero _ Hm) as Hx.
    rewrite Qabs_Qmult, (Qabs_pos (2 ^ (- e))) in Hx by lra.
    assert (H52 : 1 < (2 ^ 52 : Q)) by reflexivity.
    lra.
Qed.

(** The divisor of the gross-up, as computed, is 0 only at a dividend tax
    rate of 1. *)
Lemma divisor_zero_iff (d : Q) : Binary64.sub 1 d == 0 <-> d == 1.
Proof.
  unfold Binary64.sub. split; intro H.
  - apply rnd_zero in H. lra.
  - unfold rnd.
    assert (E : Qeq_bool (1 - d) 0 = true) by (apply Qeq_bool_iff; lra).
    now rewrite E.
Qed.

(** Rounding to an integer keeps the sign and stays below an integer
    above. *)
Lemma half_even_nonneg (x : Q) : 0 <= x -> (0 <= half_even x)%Z.
Proof.
  intro H. unfold half_even.
  assert (Hf : (0 <= Qfloor x)%Z).
  { change 0%Z with (Qfloor 0). now apply Qfloor_resp_le. }
  destruct (Qlt_bool (x - inject_Z (Qfloor x)) (1 # 2)); [lia|].
  destruct (Qlt_bool (1 # 2) (x - inject_Z (Qfloor x))); [lia|].
  destruct (Z.even (Qfloor x)); lia.
Qed.

Lemma half_even_le (x : Q) (z : Z) :
  x <= inject_Z z -> (half_even x <= z)%Z.
Proof.
  intro H. unfold half_even.
  pose proof (Qfloor_le x) as Hlo.
  assert (Hf : (Qfloor x <= z)%Z).
  { rewrite <- (Qfloor_Z z). now apply Qfloor_resp_le. }
  destruct (Z.eq_dec (Qfloor x) z) as [Heq|Hne].
  - assert (E : Qlt_bool (x - inject_Z (Qfloor x)) (1 # 2) = true).
    { apply Qlt_bool_true. rewrite Heq in *. lra. }
    rewrite E. lia.
  - destruct (Qlt_bool (x - inject_Z (Qfloor x)) (1 # 2)); [lia|].
    destruct (Qlt_bool (1 # 2) (x - inject_Z (Qfloor x))); [lia|].
    destruct (Z.even (Qfloor x)); lia.
Qed.

(** Rounding to binary64 keeps the sign. *)
Lemma rnd_nonneg (q : Q) : 0 <= q -> 0 <= rnd q.
Proof.
  intro H. unfold rnd. destruct (Qeq_bool q 0); [lra|].
  assert (Hpe : 0 < 2 ^ binade q) by (apply Qpower_0_lt; reflexivity).
  assert (Hpn : 0 < 2 ^ (- binade q)) by (apply Qpower_0_lt; reflexivity).
  apply Qmult_le_0_compat; [|lra].
  change 0 with (inject_Z 0). rewrite <- Zle_Qle.
  apply half_even_nonneg. apply Qmult_le_0_compat; lra.
Qed.

Lemma rnd_pos (q : Q) : 0 < q -> 0 < rnd q.
Proof.
  intro H. pose proof (rnd_nonneg q ltac:(lra)) as H0.
  destruct (Qlt_le_dec 0 (rnd q)) as [Hp|Hn]; [exact Hp|].
  assert (Hz : rnd q == 0) by lra. apply rnd_zero in Hz. lra.
Qed.

(** Rounding does not cross a binary64 number above. *)
Lemma rnd_le (k : Z) (j : nat) (x : Q) :
  0 <= x ->
  x <= inject_Z k / inject_Z (2 ^ Z.of_nat j) ->
  (Z.abs k < 2 ^ 53)%Z ->
  rnd x <= inject_Z k / inject_Z (2 ^ Z.of_nat j).
Proof.
  intros H0 Hle Hk. unfold rnd.
  destruct (Qeq_bool x 0) eqn:E0.
  - apply Qeq_bool_iff in E0. lra.
  - assert (Hnz : ~ x == 0)
      by (intro Hz; apply Qeq_bool_iff in Hz; congruence).
    pose proof (binade_lower x Hnz) as Hlow.
    rewrite (Qabs_pos x H0) in Hlow.
    set (e := binade x) in *.
    pose proof (pow2_Q_pos (Z.of_nat j) ltac:(lia)) as HB.
    assert (Hpe : 0 < 2 ^ e) by (apply Qpower_0_lt; reflexivity).
    assert (Hpn : 0 < 2 ^ (- e)) by (apply Qpower_0_lt; reflexivity).
    assert (Hxy : x * 2 ^ (- e)
                  <= inject_Z k / inject_Z (2 ^ Z.of_nat j) * 2 ^ (- e))
      by (apply Qmult_le_compat_r; lra).
    assert (Hk53 : inject_Z k < 2 * 2 ^ 52).
    { assert (H53 : (2 * 2 ^ 52 : Q) == inject_Z (2 ^ 53)) by reflexivity.
      rewrite H53, <- Zlt_Qlt. lia. }
    assert (He : (e <= - Z.of_nat j)%Z).
    { destruct (Z_le_gt_dec e (- Z.of_nat j)) as [Hok|Hgt]; [exact Hok|].
      exfalso.
      set (p := (e + Z.of_nat j - 1)%Z).
      assert (Hp : (0 <= p)%Z) by (unfold p; lia).
      pose proof (pow2_Q_pos p Hp) as HP.
      assert (H1 : 1 <= inject_Z (2 ^ p)).
      { change 1 with (inject_Z 1). rewrite <- Zle_Qle.
        pose proof (Z.pow_pos_nonneg 2 p ltac:(lia) Hp). lia. }
      assert (Hs : 2 ^ (- e)
                   == inject_Z (2 ^ Z.of_nat j) / (2 * inject_Z (2 ^ p))).
      { rewrite <- (pow2_Q p Hp), <- (pow2_Q (Z.of_nat j)) by lia.
        replace (- e)%Z with (Z.of_nat j + - (1 + p))%Z by (unfold p; lia).
        rewrite Qpower_plus, Qpower_opp, (Qpower_plus 2 1 p)
          by discriminate.
        reflexivity. }
      rewrite Hs in Hxy, Hlow.
      assert (Hxy' : 2 ^ 52 * (2 * inject_Z (2 ^ p)) <= inject_Z k).
      { apply Qle_trans with
          (inject_Z k / inject_Z (2 ^ Z.of_nat j) *
           (inject_Z (2 ^ Z.of_nat j) / (2 * inject_Z (2 ^ p)))
           * (2 * inject_Z (2 ^ p))).
        - apply Qmult_le_compat_r; lra.
        - apply Qle_lteq. right. field. split; lra. }
      assert (H52 : 0 < (2 ^ 52 : Q)) by reflexivity.
      set (C := (2 ^ 52 : Q)) in *. set (P := inject_Z (2 ^ p)) in *.
      nra. }
    set (p := (- Z.of_nat j - e)%Z).
    assert (Hp : (0 <= p)%Z) by (unfold p; lia).
    pose proof (pow2_Q_pos p Hp) as HA.
    assert (Hneg : 2 ^ (- e) == inject_Z (2 ^ p) * inject_Z (2 ^ Z.of_nat j)).
    { replace (- e)%Z with (p + Z.of_nat j)%Z by (unfold p; lia).
      rewrite Qpower_plus by discriminate.
      rewrite (pow2_Q p Hp), (pow2_Q (Z.of_nat j)) by lia. reflexivity. }
    assert (Hpos : 2 ^ e == / (inject_Z (2 ^ p) * inject_Z (2 ^ Z.of_nat j))).
    { rewrite <- Hneg, Qpower_opp. symmetry. apply Qinv_involutive. }
    assert (HS : x * 2 ^ (- e) <= inject_Z (k * 2 ^ p)).
    { apply Qle_trans with (1 := Hxy).
      apply Qle_lteq. right. rewrite Hneg, inject_Z_mult. field. lra. }
    apply half_even_le in HS. rewrite Zle_Qle in HS.
    apply Qle_trans with (inject_Z (k * 2 ^ p) * 2 ^ e).
    + apply Qmult_le_compat_r; lra.
    + apply Qle_lteq. right. rewrite Hpos, inject_Z_mult. field. lra.
Qed.

Section B64.

Variable current_year : Z.
Variables start_capital annual_return inflation : Q.
Variables tax_threshold1 tax_rate1 tax_rate2 dividend_tax : Q.
Variable years : Z.

Local Abbreviation body :=
  (Binary64.bisect_body current_year start_capital annual_return inflation
     tax_threshold1 tax_rate1 tax_rate2 dividend_tax years).
Local Abbreviation search :=
  (Binary64.bisect current_year start_capital annual_return inflation
     tax_threshold1 tax_rate1 tax_rate2 dividend_tax years).
Local Abbreviation state :=
  (Binary64.bisect_state current_year start_capital annual_return inflation
     tax_threshold1 tax_rate1 tax_rate2 dividend_tax years).

Lemma b64_bisect_unfold (fuel : nat) (low high : Q) :
  search fuel low high =
    if Qlt_bool tol (Binary64.sub high low) then
      match fuel with
      | O => None
      | S fuel' =>
          match body low high with
          | Raise e => Some (Raise e)
          | Ok (low', high') => search fuel' low' high'
          end
      end
    else Some (Ok (low, high)).
Proof.
  destruct fuel; reflexivity.
Qed.

Lemma b64_loop_returns (net_withdrawal : Q) (n : nat) :
  ~ Binary64.sub 1 dividend_tax == 0 ->
  forall year s,
  exists s',
    Binary64.for_years current_year annual_return inflation net_withdrawal
      tax_threshold1 tax_rate1 tax_rate2 dividend_tax n year s = Ok s'.
Proof.
  intro Hnz. induction n as [|n IH]; intros year s.
  - now exists s.
  - simpl. unfold Binary64.loop_body, Binary64.truediv.
    destruct (Qeq_bool (Binary64.sub 1 dividend_tax) 0) eqn:E.
    + apply Qeq_bool_iff in E. contradiction.
    + simpl. destruct (Qlt_bool _ 0); simpl.
      * eexists. reflexivity.
      * destruct (capital_depleted s); [eexists; reflexivity | apply IH].
Qed.

Lemma b64_body_returns (low high : Q) :
  ~ Binary64.sub 1 dividend_tax == 0 ->
  body low high = Ok (rnd (Binary64.add low high / 2), high) \/
  body low high = Ok (low, rnd (Binary64.add low high / 2)).
Proof.
  intro Hnz. unfold Binary64.bisect_body, Binary64.simulate_withdrawal.
  destruct (b64_loop_returns (rnd (Binary64.add low high / 2))
              (Z.to_nat years) Hnz 1%Z
              (mkState start_capital false
                 [mkYearRecord current_year 0 0 0 0 0 start_capital]))
    as (s' & ->).
  simpl. destruct (Qlt_bool 0 (capital s')); auto.
Qed.

Section Grid.

Variable h : Z.
Hypothesis h_range : (0 <= h <= 2 ^ 26)%Z.

(** On the grid no operation of the loop rounds. *)
Lemma grid_gap (j : nat) (low high : Q) :
  on_grid h j low high ->
  Binary64.sub high low == inject_Z h / inject_Z (2 ^ Z.of_nat j) /\
  high - low == inject_Z h / inject_Z (2 ^ Z.of_nat j).
Proof.
  intros (a & Ha0 & Ha1 & Hl & Hh).
  pose proof (pow2_Q_pos (Z.of_nat j) ltac:(lia)) as HB.
  assert (Hd : high - low == inject_Z h / inject_Z (2 ^ Z.of_nat j)).
  { rewrite Hl, Hh, !inject_Z_mult, inject_Z_plus. field. lra. }
  split; [|exact Hd].
  unfold Binary64.sub. rewrite (rnd_exact h j _ Hd); [exact Hd|].
  assert (2 ^ 26 < 2 ^ 53)%Z by reflexivity. lia.
Qed.

Lemma grid_mid (j : nat) (low high : Q) (a : Z) :
  (j <= 26)%nat ->
  (0 <= a)%Z -> (a + 1 <= 2 ^ Z.of_nat j)%Z ->
  low == inject_Z (a * h) / inject_Z (2 ^ Z.of_nat j) ->
  high == inject_Z ((a + 1) * h) / inject_Z (2 ^ Z.of_nat j) ->
  rnd (Binary64.add low high / 2)
    == inject_Z ((2 * a + 1) * h) / inject_Z (2 ^ Z.of_nat (S j)) /\
  rnd (Binary64.add low high / 2) == (low + high) / 2.
Proof.
  intros Hj Ha0 Ha1 Hl Hh.
  pose proof (pow2_Q_pos (Z.of_nat j) ltac:(lia)) as HB.
  assert (Hpow : (2 ^ Z.of_nat j <= 2 ^ 26)%Z)
    by (apply Z.pow_le_mono_r; lia).
  assert (Hk : (Z.abs ((2 * a + 1) * h) < 2 ^ 53)%Z).
  { rewrite Z.abs_eq by nia.
    assert (2 ^ 53 = 2 * (2 ^ 26 * 2 ^ 26))%Z by reflexivity. nia. }
  assert (Hsum : low + high
                 == inject_Z ((2 * a + 1) * h) / inject_Z (2 ^ Z.of_nat j)).
  { rewrite Hl, Hh, !inject_Z_mult, !inject_Z_plus, inject_Z_mult.
    change (inject_Z 2) with 2. change (inject_Z 1) with 1. field. lra. }
  assert (Hadd : Binary64.add low high == low + high)
    by (unfold Binary64.add; exact (rnd_exact _ j _ Hsum Hk)).
  assert (Hhalf : Binary64.add low high / 2
                  == inject_Z ((2 * a + 1) * h)
                     / inject_Z (2 ^ Z.of_nat (S j))).
  { rewrite Hadd, Hsum, pow2_succ. field. lra. }
  pose proof (rnd_exact _ (S j) _ Hhalf Hk) as Hr.
  split.
  - now rewrite Hr.
  - now rewrite Hr, Hadd.
Qed.

Lemma grid_step (j : nat) (low high : Q) :
  ~ Binary64.sub 1 dividend_tax == 0 ->
  (j <= 26)%nat ->
  on_grid h j low high ->
  exists low' high',
    body low high = Ok (low', high') /\ on_grid h (S j) low' high'.
Proof.
  intros Hnz Hj (a & Ha0 & Ha1 & Hl & Hh).
  destruct (grid_mid j low high a Hj Ha0 Ha1 Hl Hh) as [Hmid _].
  pose proof (pow2_Q_pos (Z.of_nat j) ltac:(lia)) as HB.
  pose proof (pow2_succ j) as Hsucc.
  assert (Hpow : (2 ^ Z.of_nat (S j) = 2 * 2 ^ Z.of_nat j)%Z)
    by (rewrite Nat2Z.inj_succ, Z.pow_succ_r by lia; reflexivity).
  destruct (b64_body_returns low high Hnz) as [Hb|Hb].
  - exists (rnd (Binary64.add low high / 2)), high.
    split; [exact Hb|]. exists (2 * a + 1)%Z.
    split; [lia|]. split; [lia|]. split; [exact Hmid|].
    rewrite Hh, Hsucc.
    replace (2 * a + 1 + 1)%Z with (2 * (a + 1))%Z by lia.
    rewrite !inject_Z_mult. change (inject_Z 2) with 2. field. lra.
  - exists low, (rnd (Binary64.add low high / 2)).
    split; [exact Hb|]. exists (2 * a)%Z.
    split; [lia|]. split; [lia|]. split; [|exact Hmid].
    rewrite Hl, Hsucc, !inject_Z_mult. change (inject_Z 2) with 2.
    field. lra.
Qed.

(** From level [j] of the grid the loop stops within [m] passes when
    the interval is at most [2 ^ m] wide. *)
Lemma grid_converges (m : nat) :
  ~ Binary64.sub 1 dividend_tax == 0 ->
  forall j low high,
    on_grid h j low high ->
    (j <= 26)%nat ->
    (h <= 2 ^ Z.of_nat (j + m))%Z ->
    forall fuel, (m <= fuel)%nat ->
    exists l r j',
      search fuel low high = Some (Ok (l, r)) /\
      r - l <= tol /\ (j' <= 26)%nat /\ on_grid h j' l r.
Proof.
  intro Hnz. induction m as [|m IH]; intros j low high Hg Hj Hm fuel Hfuel;
    destruct (grid_gap j low high Hg) as [Hsub Hdiff];
    pose proof (pow2_Q_pos (Z.of_nat j) ltac:(lia)) as HB;
    rewrite b64_bisect_unfold;
    destruct (Qlt_bool tol (Binary64.sub high low)) eqn:E.
  - exfalso. apply Qlt_bool_true in E. unfold tol in E.
    rewrite Nat.add_0_r in Hm. rewrite Zle_Qle in Hm.
    assert (inject_Z h / inject_Z (2 ^ Z.of_nat j) <= 1)
      by (apply Qle_shift_div_r; lra).
    lra.
  - exists low, high, j. split; [reflexivity|].
    apply Qlt_bool_false in E. unfold tol in *. split; [lra|]. auto.
  - destruct fuel as [|fuel]; [lia|].
    assert (Hlt : (2 ^ Z.of_nat j < h)%Z).
    { apply Qlt_bool_true in E. unfold tol in E.
      destruct (Z_lt_le_dec (2 ^ Z.of_nat j) h) as [Hlt|Hle]; [exact Hlt|].
      exfalso. rewrite Zle_Qle in Hle.
      assert (inject_Z h / inject_Z (2 ^ Z.of_nat j) <= 1)
        by (apply Qle_shift_div_r; lra).
      lra. }
    assert (Hj' : (S j <= 26)%nat).
    { assert (Hp : (2 ^ Z.of_nat j < 2 ^ 26)%Z) by lia.
      apply Z.pow_lt_mono_r_iff in Hp; lia. }
    destruct (grid_step j low high Hnz Hj Hg) as (low' & high' & -> & Hg').
    apply (IH (S j) low' high' Hg' Hj'); [|lia].
    replace (S j + m)%nat with (j + S m)%nat by lia. exact Hm.
  - exists low, high, j. split; [reflexivity|].
    apply Qlt_bool_false in E. unfold tol in *. split; [lra|]. auto.
Qed.

Lemma b64_simulate_returns (w : Q) :
  ~ Binary64.sub 1 dividend_tax == 0 ->
  exists dat dep c,
    Binary64.simulate_withdrawal current_year start_capital annual_return
      inflation w tax_threshold1 tax_rate1 tax_rate2 dividend_tax years
      = Ok (dat, dep, c).
Proof.
  intro Hnz. unfold Binary64.simulate_withdrawal.
  destruct (b64_loop_returns w (Z.to_nat years) Hnz 1%Z
              (mkState start_capital false
                 [mkYearRecord current_year 0 0 0 0 0 start_capital]))
    as (s' & ->).
  simpl. eauto.
Qed.

(** When no withdrawal up to [h] depletes the capital, the loop raises its
    lower end at every pass and leaves the upper end where it is. *)
Lemma grid_climbs (m : nat) :
  ~ Binary64.sub 1 dividend_tax == 0 ->
  (forall w dat dep c,
     0 <= w -> w <= inject_Z h ->
     Binary64.simulate_withdrawal current_year start_capital annual_return
       inflation w tax_threshold1 tax_rate1 tax_rate2 dividend_tax years
       = Ok (dat, dep, c) ->
     0 < c) ->
  forall j low high,
    on_grid h j low high ->
    (j <= 26)%nat ->
    (h <= 2 ^ Z.of_nat (j + m))%Z ->
    high == inject_Z h ->
    forall fuel, (m <= fuel)%nat ->
    exists l j',
      search fuel low high = Some (Ok (l, high)) /\
      high - l <= tol /\ (j' <= 26)%nat /\ on_grid h j' l high.
Proof.
  intros Hnz Hnever.
  induction m as [|m IH]; intros j low high Hg Hj Hm Hhigh fuel Hfuel;
    destruct (grid_gap j low high Hg) as [Hsub Hdiff];
    pose proof (pow2_Q_pos (Z.of_nat j) ltac:(lia)) as HB;
    rewrite b64_bisect_unfold;
    destruct (Qlt_bool tol (Binary64.sub high low)) eqn:E.
  - exfalso. apply Qlt_bool_true in E. unfold tol in E.
    rewrite Nat.add_0_r in Hm. rewrite Zle_Qle in Hm.
    assert (inject_Z h / inject_Z (2 ^ Z.of_nat j) <= 1)
      by (apply Qle_shift_div_r; lra).
    lra.
  - exists low, j. split; [reflexivity|].
    apply Qlt_bool_false in E. unfold tol in *. split; [lra|]. auto.
  - destruct fuel as [|fuel]; [lia|].
    assert (Hlt : (2 ^ Z.of_nat j < h)%Z).
    { apply Qlt_bool_true in E. unfold tol in E.
      destruct (Z_lt_le_dec (2 ^ Z.of_nat j) h) as [Hlt|Hle]; [exact Hlt|].
      exfalso. rewrite Zle_Qle in Hle.
      assert (inject_Z h / inject_Z (2 ^ Z.of_nat j) <= 1)
        by (apply Qle_shift_div_r; lra).
      lra. }
    assert (Hj' : (S j <= 26)%nat).
    { assert (Hp : (2 ^ Z.of_nat j < 2 ^ 26)%Z) by lia.
      apply Z.pow_lt_mono_r_iff in Hp; lia. }
    destruct Hg as (a & Ha0 & Ha1 & Hl & Hh).
    destruct (grid_mid j low high a Hj Ha0 Ha1 Hl Hh) as [Hmid Hval].
    assert (Hlow : 0 <= low).
    { rewrite Hl. apply Qle_shift_div_l; [exact HB|].
      rewrite Qmult_0_l. change 0 with (inject_Z 0). rewrite <- Zle_Qle.
      nia. }
    assert (Hstep : body low high
                    = Ok (rnd (Binary64.add low high / 2), high)).
    { unfold Binary64.bisect_body.
      destruct (b64_simulate_returns (rnd (Binary64.add low high / 2)) Hnz)
        as (dat & dep & c & Hs).
      rewrite Hs.
      assert (Hgt : tol < Binary64.sub high low) by now apply Qlt_bool_true.
      unfold tol in Hgt.
      assert (Hle : low <= high) by lra.
      pose proof (midpoint_eq low high) as Hhalf.
      assert (Hc : 0 < c).
      { apply (Hnever (rnd (Binary64.add low high / 2)) dat dep c);
          [| |exact Hs]; rewrite Hval; lra. }
      apply Qlt_bool_true in Hc. now rewrite Hc. }
    rewrite Hstep.
    apply (IH (S j));
      [ | exact Hj'
        | replace (S j + m)%nat with (j + S m)%nat by lia; exact Hm
        | exact Hhigh
        | lia ].
    exists (2 * a + 1)%Z.
    assert (Hpow : (2 ^ Z.of_nat (S j) = 2 * 2 ^ Z.of_nat j)%Z)
      by (rewrite Nat2Z.inj_succ, Z.pow_succ_r by lia; reflexivity).
    split; [lia|]. split; [lia|]. split; [exact Hmid|].
    rewrite Hh, pow2_succ.
    replace (2 * a + 1 + 1)%Z with (2 * (a + 1))%Z by lia.
    rewrite !inject_Z_mult. change (inject_Z 2) with 2. field. lra.
  - exists low, j. split; [reflexivity|].
    apply Qlt_bool_false in E. unfold tol in *. split; [lra|]. auto.
Qed.

End Grid.

End B64.

Section B64Run.

Variable current_year : Z.
Variables start_capital annual_return inflation : Q.
Variables tax_threshold1 tax_rate1 tax_rate2 dividend_tax : Q.
Variable years : Z.

Local Abbreviation body :=
  (Binary64.bisect_body current_year start_capital annual_return inflation
     tax_threshold1 tax_rate1 tax_rate2 dividend_tax years).
Local Abbreviation search :=
  (Binary64.bisect current_year start_capital annual_return inflation
     tax_threshold1 tax_rate1 tax_rate2 dividend_tax years).
Local Abbreviation state :=
  (Binary64.bisect_state current_year start_capital annual_return inflation
     tax_threshold1 tax_rate1 tax_rate2 dividend_tax years).

Lemma b64_bisect_more_fuel (fuel : nat) :
  forall low high r,
    search fuel low high = Some r ->
    forall fuel', (fuel <= fuel')%nat -> search fuel' low high = Some r.
Proof.
  induction fuel as [|fuel IH]; intros low high r H fuel' Hle;
    rewrite b64_bisect_unfold in H; rewrite b64_bisect_unfold;
    destruct (Qlt_bool tol (Binary64.sub high low)); try discriminate;
    try exact H.
  destruct fuel' as [|fuel']; [lia|].
  destruct (body low high) as [[l' h']|e]; [|exact H].
  apply (IH _ _ _ H). lia.
Qed.

(** Passes already made can be skipped. *)
Lemma b64_bisect_after (n : nat) :
  forall low high l' h',
    state n low high = Some (l', h') ->
    forall fuel, search (n + fuel) low high = search fuel l' h'.
Proof.
  induction n as [|n IH]; intros low high l' h' H fuel.
  - simpl in H. injection H as <- <-. reflexivity.
  - simpl in H. rewrite b64_bisect_unfold. simpl Nat.add.
    destruct (Qlt_bool tol (Binary64.sub high low)); [|discriminate].
    destruct (body low high) as [[l1 h1]|e]; [|discriminate].
    now apply IH.
Qed.

(** An interval wider than the tolerance that a pass leaves unchanged is
    never left. *)
Lemma b64_bisect_stuck (low high : Q) :
  Qlt_bool tol (Binary64.sub high low) = true ->
  body low high = Ok (low, high) ->
  forall fuel, search fuel low high = None.
Proof.
  intros Hc Hb. induction fuel as [|fuel IH];
    rewrite b64_bisect_unfold, Hc; [reflexivity|].
  now rewrite Hb.
Qed.

Lemma b64_bisect_never_returns (n : nat) (low high l' h' : Q) :
  state n low high = Some (l', h') ->
  Qlt_bool tol (Binary64.sub h' l') = true ->
  body l' h' = Ok (l', h') ->
  forall fuel, search fuel low high = None.
Proof.
  intros Hs Hc Hb fuel.
  destruct (search fuel low high) as [r|] eqn:E; [|reflexivity].
  exfalso.
  pose proof (b64_bisect_more_fuel _ _ _ _ E (n + fuel)%nat ltac:(lia)) as H.
  rewrite (b64_bisect_after _ _ _ _ _ Hs), (b64_bisect_stuck _ _ Hc Hb) in H.
  discriminate.
Qed.

End B64Run.

Section B64Claim.

Variable current_year : Z.
Variables annual_return inflation : Q.
Variables tax_threshold1 tax_rate1 tax_rate2 dividend_tax : Q.
Variable years : Z.
Variable n : Z.

Hypothesis capital_in_range : (0 <= n <= 2 ^ 25)%Z.
Hypothesis dividend_tax_not_one : ~ dividend_tax == 1.

Lemma b64_divisor_not_zero : ~ Binary64.sub 1 dividend_tax == 0.
Proof.
  intro H. apply dividend_tax_not_one. now apply divisor_zero_iff.
Qed.

Lemma b64_initial_interval :
  Binary64.mul (inject_Z n) 2 == inject_Z n * 2 /\
  on_grid (2 * n) 0 0 (Binary64.mul (inject_Z n) 2).
Proof.
  assert (Hq : inject_Z n * 2
               == inject_Z (2 * n) / inject_Z (2 ^ Z.of_nat 0)).
  { rewrite inject_Z_mult. change (inject_Z 2) with 2.
    change (inject_Z (2 ^ Z.of_nat 0)) with 1. field. }
  assert (Hk : (Z.abs (2 * n) < 2 ^ 53)%Z).
  { pose proof capital_in_range as Hn.
    change (2 ^ 25)%Z with 33554432%Z in Hn.
    change (2 ^ 53)%Z with 9007199254740992%Z. lia. }
  pose proof (rnd_exact _ 0 _ Hq Hk) as Hr.
  split; [exact Hr|].
  exists 0%Z. split; [lia|]. split; [simpl; lia|]. split.
  - reflexivity.
  - unfold Binary64.mul. rewrite Hr, Hq.
    replace ((0 + 1) * (2 * n))%Z with (2 * n)%Z by lia. reflexivity.
Qed.


(** X14.  For an integer start capital from 0 to 2 ^ 25 and a dividend
    tax rate other than 1, if no withdrawal between 0 and twice the start
    capital leaves a final capital of 0 or less, the loop run in binary64
    arithmetic stops within 26 passes with its upper end still at twice
    the start capital, and the value computed lies within half the
    tolerance of it. *)
Theorem solver_sticks_to_upper_bound (fuel : nat) :
  (forall w dat dep c,
     0 <= w -> w <= inject_Z n * 2 ->
     Binary64.simulate_withdrawal current_year (inject_Z n) annual_return
       inflation w tax_threshold1 tax_rate1 tax_rate2 dividend_tax years
       = Ok (dat, dep, c) ->
     0 < c) ->
  (26 <= fuel)%nat ->
  exists low w,
    Binary64.bisect current_year (inject_Z n) annual_return inflation
      tax_threshold1 tax_rate1 tax_rate2 dividend_tax years
      fuel 0 (Binary64.mul (inject_Z n) 2)
      = Some (Ok (low, Binary64.mul (inject_Z n) 2)) /\
    Binary64.solve_withdrawal current_year (inject_Z n) annual_return
      inflation tax_threshold1 tax_rate1 tax_rate2 dividend_tax years fuel
      = Some (Ok w) /\
    w == (low + inject_Z n * 2) / 2 /\
    inject_Z n * 2 - (1 # 2) <= w /\ w <= inject_Z n * 2.
Proof.
  intros Hnever Hfuel.
  assert (Hh : (0 <= 2 * n <= 2 ^ 26)%Z).
  { pose proof capital_in_range as Hn.
    change (2 ^ 25)%Z with 33554432%Z in Hn.
    change (2 ^ 26)%Z with 67108864%Z. lia. }
  destruct b64_initial_interval as [Hinit Hgrid].
  assert (Htop : Binary64.mul (inject_Z n) 2 == inject_Z (2 * n)).
  { rewrite Hinit, inject_Z_mult. change (inject_Z 2) with 2. ring. }
  assert (Hnever' : forall w dat dep c,
             0 <= w -> w <= inject_Z (2 * n) ->
             Binary64.simulate_withdrawal current_year (inject_Z n)
               annual_return inflation w tax_threshold1 tax_rate1 tax_rate2
               dividend_tax years = Ok (dat, dep, c) ->
             0 < c).
  { intros w dat dep c H0 H1. apply Hnever; [exact H0|].
    rewrite inject_Z_mult in H1. change (inject_Z 2) with 2 in H1. lra. }
  destruct (grid_climbs current_year (inject_Z n) annual_return inflation
              tax_threshold1 tax_rate1 tax_rate2 dividend_tax years
              (2 * n) Hh 26 b64_divisor_not_zero Hnever' 0%nat _ _ Hgrid
              ltac:(lia) (proj2 Hh) Htop fuel Hfuel)
    as (l & j' & Hrun & Hw & Hj' & (a & Ha0 & Ha1 & Hl & Hr)).
  exists l, (rnd (Binary64.add l (Binary64.mul (inject_Z n) 2) / 2)).
  split; [exact Hrun|].
  unfold Binary64.solve_withdrawal at 1. rewrite Hrun.
  split; [reflexivity|].
  pose proof (proj2 (grid_mid (2 * n) Hh j' l _ a Hj' Ha0 Ha1 Hl Hr))
    as Hval.
  assert (Hlow : l <= Binary64.mul (inject_Z n) 2).
  { pose proof (pow2_Q_pos (Z.of_nat j') ltac:(lia)) as HB.
    rewrite Hl, Hr. apply Qmult_le_compat_r.
    - rewrite <- Zle_Qle. nia.
    - apply Qlt_le_weak, Qinv_lt_0_compat. exact HB. }
  unfold tol in Hw.
  pose proof (midpoint_eq l (Binary64.mul (inject_Z n) 2)) as Hmid.
  pose proof (midpoint_eq l (inject_Z n * 2)) as Hmid'.
  repeat split; lra.
Qed.

End B64Claim.



(** With a return of 500% and no taxes, one year leaves 600 less the
    withdrawal: no withdrawal up to 200 depletes a capital of 100. *)
Lemma b64_high_return_never_depletes (w : Q) dat dep c :
  0 <= w -> w <= inject_Z 100 * 2 ->
  Binary64.simulate_withdrawal 2024 (inject_Z 100) 5 0 w 200000 0 0 0 1
    = Ok (dat, dep, c) ->
  0 < c.
Proof.
  intros H0 H1 H.
  assert (H200 : 200 == inject_Z 200 / inject_Z (2 ^ Z.of_nat 0))
    by reflexivity.
  assert (Hk : (Z.abs 200 < 2 ^ 53)%Z) by (vm_compute; reflexivity).
  change (inject_Z 100 * 2) with 200 in H1.
  set (A := Binary64.mul w (Binary64.pow (Binary64.add 1 0) (1 - 1))).
  assert (HA : 0 <= A /\ A <= 200).
  { unfold A, Binary64.mul. change (Binary64.pow _ _) with 1. split.
    - apply rnd_nonneg. lra.
    - rewrite H200. apply rnd_le; [lra| |exact Hk]. rewrite <- H200. lra. }
  set (G := rnd (A / Binary64.sub 1 0)).
  assert (Hone : Binary64.sub 1 0 == 1) by (vm_compute; reflexivity).
  assert (HG : 0 <= G /\ G <= 200).
  { assert (HAd : A / Binary64.sub 1 0 == A) by (rewrite Hone; field).
    unfold G. split.
    - apply rnd_nonneg. rewrite HAd. tauto.
    - rewrite H200. apply rnd_le; [rewrite HAd; tauto| |exact Hk].
      rewrite <- H200, HAd. tauto. }
  set (C := Binary64.sub
              (Binary64.add (inject_Z 100) (Binary64.mul (inject_Z 100) 5))
              (Binary64.profit_tax_of 200000 0 0
                 (Binary64.mul (inject_Z 100) 5))).
  assert (HC : C == 600) by (vm_compute; reflexivity).
  assert (HP : 0 < Binary64.sub C G).
  { unfold Binary64.sub. apply rnd_pos. lra. }
  unfold Binary64.simulate_withdrawal in H.
  change (Z.to_nat 1) with 1%nat in H.
  cbn [Binary64.for_years bind] in H.
  unfold Binary64.loop_body, Binary64.adjusted_net_of in H.
  cbn [capital capital_depleted data] in H.
  fold A in H. unfold Binary64.truediv in H.
  change (Qeq_bool (Binary64.sub 1 0) 0) with false in H.
  cbn [bind] in H. fold G C in H.
  assert (E : Qlt_bool (Binary64.sub C G) 0 = false)
    by (apply Qlt_bool_false; lra).
  rewrite E in H.
  cbn [capital capital_depleted data bind Binary64.for_years] in H.
  apply (f_equal (fun r => match r with
                           | Ok (_, _, x) => x
                           | Raise _ => 0
                           end)) in H.
  cbv beta iota in H. rewrite <- H. exact HP.
Qed.

(** X14 on that input. *)
Lemma solver_sticks_to_upper_bound_witness :
  exists low w,
    Binary64.bisect 2024 (inject_Z 100) 5 0 200000 0 0 0 1 26 0
      (Binary64.mul (inject_Z 100) 2)
      = Some (Ok (low, Binary64.mul (inject_Z 100) 2)) /\
    Binary64.solve_withdrawal 2024 (inject_Z 100) 5 0 200000 0 0 0 1 26
      = Some (Ok w) /\
    w == (low + inject_Z 100 * 2) / 2 /\
    inject_Z 100 * 2 - (1 # 2) <= w /\ w <= inject_Z 100 * 2.
Proof.
  assert (Hn : (0 <= 100 <= 2 ^ 25)%Z)
    by (split; [lia | vm_compute; discriminate]).
  assert (Hnz : ~ 0 == 1) by (intro H; vm_compute in H; discriminate).
  assert (Hfuel : (26 <= 26)%nat) by lia.
  exact (solver_sticks_to_upper_bound 2024 5 0 200000 0 0 0 1 100 Hn Hnz 26
           b64_high_return_never_depletes Hfuel).
Defined.

(** [rnd] against Rocq's own binary64 numbers, on the rates of the
    widgets, on a product and on the sums that decide the loop above. *)
Example rnd_agrees_with_floats :
  Q_of_float (4 / 100)%float = Some (rnd (4 # 100)) /\
  Q_of_float (2 / 100)%float = Some (rnd (2 # 100)) /\
  Q_of_float (19 / 100)%float = Some (rnd (19 # 100)) /\
  Q_of_float (20000000000000000 * (4 / 100))%float
    = Some (Binary64.mul 20000000000000000 (rnd (4 # 100))) /\
  Q_of_float ((15445200000010198 + 15445200000010200) / 2)%float
    = Some (rnd (Binary64.add 15445200000010198 15445200000010200 / 2)) /\
  Q_of_float (9007199254740992 + 1)%float
    = Some (Binary64.add 9007199254740992 1) /\
  Q_of_float (9007199254740994 + 1)%float
    = Some (Binary64.add 9007199254740994 1).
Proof.
  repeat split; vm_compute; reflexivity.
Qed.
